(** * savory: cart and checkout workflow of [main.py]

    A shallow embedding of the Flask views of [main.py] that touch the
    process-wide [cart] dict and the [meals] list, with the properties of
    the cart/checkout specification stated over it.

    Conventions of the embedding:
    - a Python [dict] is an association list in insertion order;
    - a Python exception is an [outcome] constructor, and the globals a view
      has written before it raised are kept (the process goes on serving);
    - a Python [float] is a binary64 value ([spec_float] at precision 53);
    - a route parameter [<int:...>] is a [nat]: Flask's converter matches
      digits only.

    [login] and [register] are left out: they only read the cart, to pick
    the page to land on, and depend on the customer table and the forms. *)

From Stdlib Require Import ZArith List String Ascii Bool Lia Permutation.
From Stdlib Require Import DecimalString.
From Stdlib Require Import Floats.SpecFloat.
Import ListNotations.

Open Scope string_scope.
Open Scope Z_scope.

(** ** Exceptions and outcomes *)

(** The error names of the specification (section 7).  No statement of
    [main.py] raises them; they are here so that claims about them can be
    stated and compared with what the views do raise. *)
Inductive cart_error := InvalidItem | InvalidQuantity | UnknownItem.

Inductive exn :=
| IndexError          (* list index out of range *)
| KeyError            (* dict.pop / dict[...] on a missing key *)
| ValueError          (* int() / float() on a malformed literal *)
| TypeError           (* str + int *)
| OverflowError       (* int too large to convert to float *)
| BadRequestKeyError  (* request.form[...] on a missing field *)
| StripeError         (* anything stripe.checkout.Session.create raises *)
| CartError (e : cart_error).

Inductive outcome (A : Type) :=
| Returned (a : A)
| Raised (e : exn).
Arguments Returned {A} a.
Arguments Raised {A} e.

Definition is_cart_error {A} (o : outcome A) : bool :=
  match o with
  | Raised (CartError _) => true
  | _ => false
  end.

(** ** Python floats (binary64) *)

Module PyFloat.

Definition prec : Z := 53.
Definition emax : Z := 1024.

Definition t := spec_float.

Definition mul : t -> t -> t := SFmul prec emax.
Definition add : t -> t -> t := SFadd prec emax.
Definition div : t -> t -> t := SFdiv prec emax.

(** The float nearest to an integer (ties to even); an infinity when the
    integer is out of range. *)
Definition of_Z (z : Z) : t := binary_normalize prec emax z 0 false.

(** The float a decimal literal [n / d] denotes, e.g. [literal 450 100]
    for [4.50]. *)
Definition literal (n d : Z) : t := div (of_Z n) (of_Z d).

Definition is_finite (x : t) : bool :=
  match x with
  | S754_zero _ | S754_finite _ _ _ => true
  | _ => false
  end.

(** [x] has no fractional part. *)
Definition is_integral (x : t) : bool :=
  match x with
  | S754_zero _ => true
  | S754_finite _ m e =>
      if 0 <=? e then true
      else Z.pos m mod 2 ^ (- e) =? 0
  | _ => false
  end.

(** Nearest integer to [n / 2^k], ties to even. *)
Definition round_half_even (n k : Z) : Z :=
  let q := n / 2 ^ k in
  let r := n mod 2 ^ k in
  match 2 * r ?= 2 ^ k with
  | Lt => q
  | Gt => q + 1
  | Eq => if Z.even q then q else q + 1
  end.

(** [round(x)]: the nearest [int], ties to even; [None] where Python
    raises (infinities and NaN). *)
Definition round0 (x : t) : option Z :=
  match x with
  | S754_zero _ => Some 0
  | S754_finite s m e =>
      let a := if 0 <=? e then Z.pos m * 2 ^ e
               else round_half_even (Z.pos m) (- e) in
      Some (if s then - a else a)
  | _ => None
  end.

(** [round(x, 2)]: the exact value of [x] is rounded to two decimal
    places, ties to even, and the float nearest to that decimal is
    returned; non-finite and integral values come back unchanged. *)
Definition round2 (x : t) : t :=
  match x with
  | S754_finite s m e =>
      if 0 <=? e then x
      else
        match round_half_even (100 * Z.pos m) (- e) with
        | Z.pos n => div (S754_finite s n 0) (S754_finite false 100 0)
        | _ => S754_zero s
        end
  | _ => x
  end.

End PyFloat.

(** ** Python values held by the cart, and the builtins applied to them *)

(** A quantity in [cart] is an [int] ([add_to_cart]) or the [str] taken
    from the posted form ([update_quantity]). *)
Inductive pyval :=
| PyInt (z : Z)
| PyStr (s : string).

(** [bool(v)] *)
Definition truthy (v : pyval) : bool :=
  match v with
  | PyInt z => negb (z =? 0)
  | PyStr s => negb (String.eqb s "")
  end.

(** [v + 1] for the augmented assignment [cart[meal_id] += 1]. *)
Definition py_add_one (v : pyval) : outcome pyval :=
  match v with
  | PyInt z => Returned (PyInt (z + 1))
  | PyStr _ => Raised TypeError
  end.


(** The whitespace [int()] and [float()] skip around an ASCII literal:
    tab, line feed, vertical tab, form feed, carriage return and space. *)
Definition is_space (c : ascii) : bool :=
  let n := nat_of_ascii c in
  (((9 <=? n) && (n <=? 13)) || (n =? 32))%nat.

Definition digit_of (c : ascii) : option Z :=
  let n := Z.of_nat (nat_of_ascii c) in
  if (48 <=? n) && (n <=? 57) then Some (n - 48) else None.

Fixpoint lstrip (l : list ascii) : list ascii :=
  match l with
  | c :: l' => if is_space c then lstrip l' else l
  | [] => []
  end.

Definition strip (l : list ascii) : list ascii :=
  rev (lstrip (rev (lstrip l))).

(** Decimal digits, a single underscore allowed between two digits. *)
Fixpoint parse_digits (acc : Z) (after_digit : bool) (l : list ascii)
  : option Z :=
  match l with
  | [] => if after_digit then Some acc else None
  | c :: l' =>
      if Ascii.eqb c "_"%char
      then if after_digit then parse_digits acc false l' else None
      else match digit_of c with
           | Some d => parse_digits (10 * acc + d) true l'
           | None => None
           end
  end.

Definition parse_int_literal (s : string) : option Z :=
  match strip (list_ascii_of_string s) with
  | c :: l =>
      if Ascii.eqb c "-"%char then option_map Z.opp (parse_digits 0 false l)
      else if Ascii.eqb c "+"%char then parse_digits 0 false l
      else parse_digits 0 false (c :: l)
  | [] => None
  end.

(** The interpreter's default cap on the digits of a decimal literal
    ([sys.int_info.default_max_str_digits]). *)
Definition int_max_str_digits : Z := 4300.

(** The digits of a literal, underscores and sign left out, leading zeros
    counted. *)
Definition count_digits (s : string) : Z :=
  Z.of_nat
    (List.length
       (filter (fun c => match digit_of c with Some _ => true | None => false end)
          (list_ascii_of_string s))).

(** [int(s)] for a [str] of ASCII characters: surrounding whitespace, an
    optional sign, decimal digits, no more of them than the cap;
    [ValueError] otherwise. *)
Definition py_int_of_str (s : string) : outcome Z :=
  match parse_int_literal s with
  | Some z =>
      if count_digits s <=? int_max_str_digits then Returned z
      else Raised ValueError
  | None => Raised ValueError
  end.

(** [int(v)] *)
Definition py_int (v : pyval) : outcome Z :=
  match v with
  | PyInt z => Returned z
  | PyStr s => py_int_of_str s
  end.

(** [float(v)].  An [int] out of the float range raises; a [str] is read
    with the integer-literal grammar above, which is all [update_quantity]
    lets into the cart (it stores a form value only after [int()] accepted
    it); [float()] has no cap on the digits, and a literal out of range
    reads as infinity. *)
Definition py_float (v : pyval) : outcome PyFloat.t :=
  match v with
  | PyInt z =>
      let f := PyFloat.of_Z z in
      if PyFloat.is_finite f then Returned f else Raised OverflowError
  | PyStr s =>
      match parse_int_literal s with
      | Some z => Returned (PyFloat.of_Z z)
      | None => Raised ValueError
      end
  end.

(** [str(n)] of a non-negative [int], for the f-string [f'quantity-{i}']. *)
Definition py_str_of_nat (n : nat) : string :=
  NilEmpty.string_of_uint (Nat.to_uint n).

(** [l[i]] on a list: a negative index counts from the end. *)
Definition py_list_getitem {A} (l : list A) (i : Z) : outcome A :=
  let n := Z.of_nat (List.length l) in
  let j := if i <? 0 then i + n else i in
  if (0 <=? j) && (j <? n)
  then match nth_error l (Z.to_nat j) with
       | Some a => Returned a
       | None => Raised IndexError
       end
  else Raised IndexError.

(** ** The cart: a [dict] from meal id to quantity *)

Module Dict.

Definition t := list (nat * pyval).

Definition empty : t := [].

(** [d.keys()], in insertion order *)
Definition keys (d : t) : list nat := map fst d.

(** [d.get(k)] *)
Fixpoint get (k : nat) (d : t) : option pyval :=
  match d with
  | [] => None
  | (k', v) :: d' => if Nat.eqb k k' then Some v else get k d'
  end.

(** [d[k] = v]: an existing key keeps its place, a new one goes last. *)
Fixpoint set (k : nat) (v : pyval) (d : t) : t :=
  match d with
  | [] => [(k, v)]
  | (k', v') :: d' =>
      if Nat.eqb k k' then (k, v) :: d' else (k', v') :: set k v d'
  end.

Definition remove (k : nat) (d : t) : t :=
  filter (fun kv => negb (Nat.eqb k (fst kv))) d.

(** [d[k]] *)
Definition getitem (k : nat) (d : t) : outcome pyval :=
  match get k d with
  | Some v => Returned v
  | None => Raised KeyError
  end.

(** [d.pop(k)]: the value and the dict without [k]. *)
Definition pop (k : nat) (d : t) : outcome (pyval * t) :=
  match get k d with
  | Some v => Returned (v, remove k d)
  | None => Raised KeyError
  end.

(** [bool(d)] *)
Definition nonempty (d : t) : bool :=
  match d with
  | [] => false
  | _ :: _ => true
  end.

(** Representation invariant: a key occurs once. *)
Definition wf (d : t) : Prop := NoDup (keys d).

End Dict.

(** ** Catalog rows, line items and the globals of the process *)

Module Meal.
(** [Meal.to_dict()]: one row of the [meal] table. *)
Record t := { id : nat; name : string; price : PyFloat.t }.
End Meal.

Record ProductData := { name : string }.

Record PriceData := {
  currency : string;
  product_data : ProductData;
  unit_amount_decimal : PyFloat.t
}.

Record LineItem := {
  price_data : PriceData;
  quantity : pyval
}.

(** The keyword arguments of [stripe.checkout.Session.create]. *)
Record CheckoutRequest := {
  line_items : list LineItem;
  mode : string;
  success_url : string;
  cancel_url : string
}.

Record globals := {
  meals : list Meal.t;              (* loaded once at start-up *)
  cart : Dict.t;                    (* the one cart of the process *)
  is_authenticated : bool;          (* current_user.is_authenticated *)
  flashes : list string;            (* messages queued by flash() *)
  stripe_calls : list CheckoutRequest  (* requests sent to the provider *)
}.

Definition with_cart (c : Dict.t) (g : globals) : globals :=
  {| meals := meals g; cart := c; is_authenticated := is_authenticated g;
     flashes := flashes g; stripe_calls := stripe_calls g |}.

(** ** Responses *)

Inductive endpoint := EpHome | EpLogin | EpShoppingCart.

Definition url_for (e : endpoint) : string :=
  match e with
  | EpHome => "/"
  | EpLogin => "/login"
  | EpShoppingCart => "/shopping-cart"
  end.

(** The running total of [shopping_cart]: the [int] 0 it starts from, or a
    float once a line has been added. *)
Inductive pynum :=
| NumInt (z : Z)
| NumFloat (f : PyFloat.t).

Inductive template_context :=
| NoContext
| MealsContext (ms : list Meal.t)
| CartContext (total_price : pynum) (items : list LineItem)
              (meal_ids : list nat).

Inductive response :=
| Redirect (location : string) (code : Z)
| RenderTemplate (template : string) (context : template_context).

(** [redirect(location)]: 302 unless a code is given. *)
Definition redirect (location : string) : response := Redirect location 302.

(** ** Views as state transformers that may raise *)

Definition M (A : Type) : Type := globals -> outcome A * globals.

Definition ret {A} (a : A) : M A := fun g => (Returned a, g).

Definition raise {A} (e : exn) : M A := fun g => (Raised e, g).

Definition bind {A B} (m : M A) (k : A -> M B) : M B :=
  fun g =>
    match m g with
    | (Returned a, g') => k a g'
    | (Raised e, g') => (Raised e, g')
    end.

Definition lift {A} (o : outcome A) : M A := fun g => (o, g).

Declare Scope view_scope.
Delimit Scope view_scope with view.
Notation "x <- m ;; k" := (bind m (fun x => k))
  (at level 61, m at next level, right associativity) : view_scope.
Notation "' p <- m ;; k" := (bind m (fun x => let p := x in k))
  (at level 61, p pattern, m at next level, right associativity) : view_scope.
Notation "m ;;; k" := (bind m (fun _ => k))
  (at level 61, right associativity) : view_scope.

Definition read_cart : M Dict.t := fun g => (Returned (cart g), g).
Definition write_cart (c : Dict.t) : M unit :=
  fun g => (Returned tt, with_cart c g).
Definition read_meals : M (list Meal.t) := fun g => (Returned (meals g), g).
Definition current_user_is_authenticated : M bool :=
  fun g => (Returned (is_authenticated g), g).

(** [flash(message)] *)
Definition flash (message : string) : M unit :=
  fun g =>
    (Returned tt,
     {| meals := meals g; cart := cart g;
        is_authenticated := is_authenticated g;
        flashes := flashes g ++ [message];
        stripe_calls := stripe_calls g |}).

(** [logout_user()] *)
Definition logout_user : M unit :=
  fun g =>
    (Returned tt,
     {| meals := meals g; cart := cart g; is_authenticated := false;
        flashes := flashes g; stripe_calls := stripe_calls g |}).

Open Scope view_scope.

(** ** [get_line_items] *)

(** The body of the [for item, quantity in cart.items()] loop, run over the
    entries still to visit with the two lists built so far. *)
Fixpoint get_line_items_loop (ms : list Meal.t) (entries : Dict.t)
    (items : list LineItem) (meal_ids : list nat)
  : outcome (list LineItem * list nat) :=
  match entries with
  | [] => Returned (items, meal_ids)
  | (item, qty) :: rest =>
      match py_list_getitem ms (Z.of_nat item - 1) with
      | Raised e => Raised e
      | Returned meal =>
          get_line_items_loop ms rest
            (items ++
               [{| price_data :=
                     {| currency := "usd";
                        product_data := {| name := Meal.name meal |};
                        unit_amount_decimal :=
                          PyFloat.mul (Meal.price meal) (PyFloat.of_Z 100) |};
                   quantity := qty |}])
            (meal_ids ++ [item])
      end
  end.

(** [get_line_items()], with the two globals it reads as arguments. *)
Definition get_line_items (ms : list Meal.t) (c : Dict.t)
  : outcome (list LineItem * list nat) :=
  get_line_items_loop ms c [] [].

Definition call_get_line_items : M (list LineItem * list nat) :=
  fun g => (get_line_items (meals g) (cart g), g).

(** ** The views *)

Section Views.

(** The payment provider: the URL of the session it creates for a request,
    or the exception the client library raises. *)
Variable stripe_checkout_Session_create : CheckoutRequest -> outcome string.

Definition call_stripe (rq : CheckoutRequest) : M string :=
  fun g =>
    (stripe_checkout_Session_create rq,
     {| meals := meals g; cart := cart g;
        is_authenticated := is_authenticated g;
        flashes := flashes g;
        stripe_calls := stripe_calls g ++ [rq] |}).

(** [POST /create-checkout-session] *)
Definition create_checkout_session : M response :=
  authenticated <- current_user_is_authenticated ;;
  if authenticated then
    c <- read_cart ;;
    if Dict.nonempty c then
      r <- call_get_line_items ;;
      session_url <- call_stripe
        {| line_items := fst r;
           mode := "payment";
           success_url := "http://127.0.0.1:4242/order/success";
           cancel_url := "http://127.0.0.1:4242/cancel" |} ;;
      ret (Redirect session_url 303)
    else ret (redirect (url_for EpHome))
  else
    flash "You must be signed in to checkout. Please log in!" ;;;
    ret (redirect (url_for EpLogin)).

(** [GET /order/success] *)
Definition order_success : M response :=
  write_cart Dict.empty ;;;
  ret (RenderTemplate "success.html" NoContext).

(** [GET /cancel] *)
Definition cancel : M response :=
  ret (redirect (url_for EpShoppingCart)).

(** [GET /update-cart/<int:meal_id>] *)
Definition add_to_cart (meal_id : nat) : M response :=
  c <- read_cart ;;
  (if match Dict.get meal_id c with Some v => truthy v | None => false end
   then
     v <- lift (Dict.getitem meal_id c) ;;
     v' <- lift (py_add_one v) ;;
     write_cart (Dict.set meal_id v' c)
   else write_cart (Dict.set meal_id (PyInt 1) c)) ;;;
  ret (redirect (url_for EpHome)).

(** [total += item[...]['unit_amount_decimal'] / 100 * float(item['quantity'])] *)
Definition add_line (total : pynum) (item : LineItem) : outcome pynum :=
  match py_float (quantity item) with
  | Raised e => Raised e
  | Returned q =>
      let line :=
        PyFloat.mul
          (PyFloat.div (unit_amount_decimal (price_data item))
                       (PyFloat.of_Z 100))
          q in
      match total with
      | NumFloat t => Returned (NumFloat (PyFloat.add t line))
      | NumInt z =>
          match py_float (PyInt z) with
          | Raised e => Raised e
          | Returned t => Returned (NumFloat (PyFloat.add t line))
          end
      end
  end.

Fixpoint sum_lines (total : pynum) (items : list LineItem) : outcome pynum :=
  match items with
  | [] => Returned total
  | item :: rest =>
      match add_line total item with
      | Raised e => Raised e
      | Returned total' => sum_lines total' rest
      end
  end.

(** [round(total, 2)]: an [int] is returned as it is. *)
Definition py_round2 (total : pynum) : pynum :=
  match total with
  | NumInt z => NumInt z
  | NumFloat f => NumFloat (PyFloat.round2 f)
  end.

(** [GET /shopping-cart] *)
Definition shopping_cart : M response :=
  r <- call_get_line_items ;;
  total <- lift (sum_lines (NumInt 0) (fst r)) ;;
  ret (RenderTemplate "shopping_cart.html"
         (CartContext (py_round2 total) (fst r) (snd r))).

Inductive http_method := GET | HEAD | POST.

(** [request.form[name]] *)
Fixpoint form_getitem (form : list (string * string)) (field : string)
  : outcome string :=
  match form with
  | [] => Raised BadRequestKeyError
  | (k, v) :: form' =>
      if String.eqb k field then Returned v else form_getitem form' field
  end.

(** [f'quantity-{item_idx}'] *)
Definition quantity_field (item_idx : nat) : string :=
  "quantity-" ++ py_str_of_nat item_idx.
Arguments quantity_field : simpl never.

(** The part of [update_quantity] that follows the positional lookup: what
    is done to the cart key [cart_idx]. *)
Definition update_quantity_at (cart_idx : nat) (item_idx : nat)
    (method : http_method) (form : list (string * string)) : M unit :=
  c <- read_cart ;;
  match method with
  | GET =>
      r <- lift (Dict.pop cart_idx c) ;;
      write_cart (snd r)
  | _ =>
      raw <- lift (form_getitem form (quantity_field item_idx)) ;;
      qty <- lift (py_int_of_str raw) ;;
      if 0 <? qty then
        raw' <- lift (form_getitem form (quantity_field item_idx)) ;;
        write_cart (Dict.set cart_idx (PyStr raw') c)
      else
        r <- lift (Dict.pop cart_idx c) ;;
        write_cart (snd r)
  end.

(** [GET, POST /update-quantity/<int:item_idx>] *)
Definition update_quantity (item_idx : nat) (method : http_method)
    (form : list (string * string)) : M response :=
  c <- read_cart ;;
  cart_idx <- lift (py_list_getitem (Dict.keys c) (Z.of_nat item_idx)) ;;
  update_quantity_at cart_idx item_idx method form ;;;
  ret (redirect (url_for EpShoppingCart)).

(** [GET /] *)
Definition home : M response :=
  ms <- read_meals ;;
  ret (RenderTemplate "index.html" (MealsContext ms)).

(** [GET /logout] *)
Definition logout : M response :=
  logout_user ;;;
  write_cart Dict.empty ;;;
  ret (redirect (url_for EpHome)).

(** ** Serving requests *)

Inductive request :=
| ReqHome
| ReqUpdateCart (meal_id : nat)
| ReqShoppingCart
| ReqUpdateQuantity (item_idx : nat) (method : http_method)
                    (form : list (string * string))
| ReqCreateCheckoutSession
| ReqOrderSuccess
| ReqCancel
| ReqLogout.

Definition dispatch (rq : request) : M response :=
  match rq with
  | ReqHome => home
  | ReqUpdateCart meal_id => add_to_cart meal_id
  | ReqShoppingCart => shopping_cart
  | ReqUpdateQuantity item_idx method form =>
      update_quantity item_idx method form
  | ReqCreateCheckoutSession => create_checkout_session
  | ReqOrderSuccess => order_success
  | ReqCancel => cancel
  | ReqLogout => logout
  end.

(** The process answers the requests one after the other; a view that
    raises answers with its exception and the globals stay as it left
    them.  The requests are those of one browser session, with no other
    visitor in between: [is_authenticated] and [flashes] are that
    session's, while [meals], [cart] and the provider are the process's
    ([serve_among] below lets other sessions in). *)
Fixpoint serve (rqs : list request) (g : globals)
  : list (outcome response) * globals :=
  match rqs with
  | [] => ([], g)
  | rq :: rest =>
      let (o, g') := dispatch rq g in
      let (os, g'') := serve rest g' in
      (o :: os, g'')
  end.

End Views.

(** * Derived notions, example data and the claims as worded *)

(** ** The line-item deriver, by position and by id *)

(** The dict [get_line_items] builds for one cart entry. *)
Definition line_item_of (meal : Meal.t) (qty : pyval) : LineItem :=
  {| price_data :=
       {| currency := "usd";
          product_data := {| name := Meal.name meal |};
          unit_amount_decimal :=
            PyFloat.mul (Meal.price meal) (PyFloat.of_Z 100) |};
     quantity := qty |}.

(** The meal [get_line_items] uses for the cart key [item]. *)
Definition meal_at (ms : list Meal.t) (item : nat) : outcome Meal.t :=
  py_list_getitem ms (Z.of_nat item - 1).

(** The line items of the entries, without the accumulators of the loop. *)
Fixpoint line_items_by_position (ms : list Meal.t) (entries : Dict.t)
  : outcome (list LineItem) :=
  match entries with
  | [] => Returned []
  | (item, qty) :: rest =>
      match meal_at ms item with
      | Raised e => Raised e
      | Returned meal =>
          match line_items_by_position ms rest with
          | Raised e => Raised e
          | Returned l => Returned (line_item_of meal qty :: l)
          end
      end
  end.

(** The deriver as section 4.3 of the specification words it: the
    CatalogItem is looked up by id, and a key without one fails with
    [UnknownItem]. *)
Fixpoint find_meal (ms : list Meal.t) (item : nat) : option Meal.t :=
  match ms with
  | [] => None
  | m :: ms' => if Nat.eqb (Meal.id m) item then Some m else find_meal ms' item
  end.

Fixpoint spec_derive_line_items (ms : list Meal.t) (entries : Dict.t)
  : outcome (list LineItem) :=
  match entries with
  | [] => Returned []
  | (item, qty) :: rest =>
      match find_meal ms item with
      | None => Raised (CartError UnknownItem)
      | Some meal =>
          match spec_derive_line_items ms rest with
          | Raised e => Raised e
          | Returned l => Returned (line_item_of meal qty :: l)
          end
      end
  end.

Definition catalog_ids (ms : list Meal.t) : list nat := map Meal.id ms.

(** The catalog list holds the meal of id [i] at position [i - 1], as the
    rows of a table with ids 1, 2, ... read in id order do. *)
Definition ids_by_position (ms : list Meal.t) : Prop :=
  forall i m, nth_error ms i = Some m -> Meal.id m = S i.

(** ** Example data *)

Definition soup : Meal.t :=
  {| Meal.id := 1; Meal.name := "Soup"; Meal.price := PyFloat.literal 450 100 |}.

Definition salad : Meal.t :=
  {| Meal.id := 2; Meal.name := "Salad"; Meal.price := PyFloat.literal 600 100 |}.

(** A meal priced 4.35. *)
Definition stew : Meal.t :=
  {| Meal.id := 1; Meal.name := "Stew"; Meal.price := PyFloat.literal 435 100 |}.

(** The globals right after start-up with the catalog [ms]. *)
Definition startup (ms : list Meal.t) : globals :=
  {| meals := ms; cart := Dict.empty; is_authenticated := false;
     flashes := []; stripe_calls := [] |}.

(** A provider that accepts every request. *)
Definition stripe_ok (rq : CheckoutRequest) : outcome string :=
  Returned "https://checkout.stripe.com/pay/cs_test".

(** ** The claims that do not hold as worded *)

(** The claim at one catalog and cart: with every key an existing id the
    line items are those of the by-id deriver and do not change when the
    catalog list is reordered; a key without a CatalogItem fails with
    [UnknownItem]. *)
Definition line_items_by_id_claim (ms : list Meal.t) (c : Dict.t) : Prop :=
  ((forall k, In k (Dict.keys c) -> In k (catalog_ids ms)) ->
   (exists l, spec_derive_line_items ms c = Returned l /\
              get_line_items ms c = Returned (l, Dict.keys c)) /\
   (forall ms', Permutation ms ms' ->
                get_line_items ms' c = get_line_items ms c)) /\
  ((exists k, In k (Dict.keys c) /\ ~ In k (catalog_ids ms)) ->
   get_line_items ms c = Raised (CartError UnknownItem)).

(** The claim at one catalog and cart: every line item carries the integer
    [round(unitPrice * 100)] of the meal it was derived from. *)
Definition unit_amount_rounded_claim (ms : list Meal.t) (c : Dict.t) : Prop :=
  forall items ids,
    get_line_items ms c = Returned (items, ids) ->
    Forall2
      (fun kv li =>
         exists m z,
           meal_at ms (fst kv) = Returned m /\
           PyFloat.is_integral (unit_amount_decimal (price_data li)) = true /\
           PyFloat.round0 (PyFloat.mul (Meal.price m) (PyFloat.of_Z 100))
             = Some z /\
           unit_amount_decimal (price_data li) = PyFloat.of_Z z)
      c items.

(** The claim at one state, id and count: a valid id not yet in the cart
    has quantity [N + 1] after [N + 1] increments, and an id outside the
    catalog makes the increment fail with [InvalidItem]. *)
Definition increment_claim (g : globals) (meal_id : nat) (N : nat) : Prop :=
  (In meal_id (catalog_ids (meals g)) ->
   Dict.get meal_id (cart g) = None ->
   Dict.get meal_id
     (cart (snd (serve stripe_ok (repeat (ReqUpdateCart meal_id) (S N)) g)))
   = Some (PyInt (Z.of_nat (S N)))) /\
  (~ In meal_id (catalog_ids (meals g)) ->
   fst (add_to_cart meal_id g) = Raised (CartError InvalidItem)).


(** ** Invariants of the cart *)

(** A quantity as the data model wants it: a positive [int]. *)
Definition positive_int (v : pyval) : Prop :=
  exists z, v = PyInt z /\ 0 < z.

Definition quantities_positive (c : Dict.t) : Prop :=
  Forall (fun kv => positive_int (snd kv)) c.

(** ** Messages *)

Definition must_sign_in : string :=
  "You must be signed in to checkout. Please log in!".

(** * The rest of [main.py] *)

(** ** The database URI *)

(** [s[n:]] *)
Fixpoint str_drop (n : nat) (s : string) : string :=
  match n, s with
  | O, _ => s
  | S n', String _ s' => str_drop n' s'
  | S _, EmptyString => EmptyString
  end.

(** [s.replace(old, new, 1)]: the leftmost occurrence of [old] is
    replaced. *)
Fixpoint str_replace_first (old new s : string) : string :=
  if String.prefix old s then new ++ str_drop (String.length old) s
  else match s with
       | EmptyString => EmptyString
       | String c s' => String c (str_replace_first old new s')
       end.

(** The value given to [SQLALCHEMY_DATABASE_URI], from what the environment
    holds under [DATABASE_URL]. *)
Definition database_uri (DATABASE_URL : option string) : string :=
  let uri := match DATABASE_URL with
             | Some u => u
             | None => "sqlite:///savory.db"
             end in
  if String.prefix "postgres://" uri
  then str_replace_first "postgres://" "postgresql://" uri
  else uri.

(** ** Customers, [register] and [login] *)

Module Customer.
(** A row of the [customer] table.  The [id] column is filled in by the
    database and is read by [load_user] only; it is left out. *)
Record t := { name : string; email : string; password : string }.
End Customer.

(** The data of a form for which [validate_on_submit()] holds. *)
Module RegisterForm.
Record data := { name : string; email : string; password : string }.
End RegisterForm.

Module LoginForm.
Record data := { email : string; password : string }.
End LoginForm.

(** The globals together with the [customer] table. *)
Record site := {
  app : globals;
  customers : list Customer.t
}.

(** [Customer.query.filter_by(email=e).first()] *)
Fixpoint customer_by_email (cs : list Customer.t) (e : string)
  : option Customer.t :=
  match cs with
  | [] => None
  | c :: cs' =>
      if String.eqb (Customer.email c) e then Some c
      else customer_by_email cs' e
  end.

(** [login_user(customer)] *)
Definition login_user : M unit :=
  fun g =>
    (Returned tt,
     {| meals := meals g; cart := cart g; is_authenticated := true;
        flashes := flashes g; stripe_calls := stripe_calls g |}).

(** [redirect(url_for('shopping_cart')) if cart else redirect(url_for('home'))] *)
Definition landing_page (g : globals) : response :=
  if Dict.nonempty (cart g)
  then redirect (url_for EpShoppingCart)
  else redirect (url_for EpHome).

(** What [register] and [login] answer: a response as the other views
    give, or the page of the form. *)
Inductive auth_response :=
| Answer (r : response)
| FormPage (template : string).

Definition already_signed_up : string :=
  "You've already signed up with that email, log in instead!".
Definition password_incorrect : string :=
  "Password incorrect. Please try again.".
Definition email_unknown : string :=
  "That email does not exist. Please try again.".

Section Auth.

(** werkzeug's hashing pair: [generate_password_hash password], with the
    salt it draws made an argument, and [check_password_hash pwhash
    password]. *)
Variable generate_password_hash : string -> string -> string.
Variable check_password_hash : string -> string -> bool.

(** [GET, POST /register]; [form] is the validated data of the posted form,
    if there is one. *)
Definition register (form : option RegisterForm.data) (salt : string)
    (s : site) : auth_response * site :=
  if is_authenticated (app s) then (Answer (redirect (url_for EpHome)), s)
  else
    match form with
    | Some d =>
        match customer_by_email (customers s) (RegisterForm.email d) with
        | Some _ =>
            (Answer (redirect (url_for EpLogin)),
             {| app := snd (flash already_signed_up (app s));
                customers := customers s |})
        | None =>
            let new_customer :=
              {| Customer.name := RegisterForm.name d;
                 Customer.email := RegisterForm.email d;
                 Customer.password :=
                   generate_password_hash (RegisterForm.password d) salt |} in
            (Answer (landing_page (app s)),
             {| app := snd (login_user (app s));
                customers := customers s ++ [new_customer] |})
        end
    | None => (FormPage "register.html", s)
    end.

(** [GET, POST /login] *)
Definition login (form : option LoginForm.data) (s : site)
  : auth_response * site :=
  if is_authenticated (app s) then (Answer (redirect (url_for EpHome)), s)
  else
    match form with
    | Some d =>
        match customer_by_email (customers s) (LoginForm.email d) with
        | Some customer =>
            if check_password_hash (Customer.password customer)
                 (LoginForm.password d)
            then (Answer (landing_page (app s)),
                  {| app := snd (login_user (app s));
                     customers := customers s |})
            else (Answer (redirect (url_for EpLogin)),
                  {| app := snd (flash password_incorrect (app s));
                     customers := customers s |})
        | None =>
            (Answer (redirect (url_for EpLogin)),
             {| app := snd (flash email_unknown (app s));
                customers := customers s |})
        end
    | None => (FormPage "login.html", s)
    end.

End Auth.

(** A view of the cart part run on the whole site: the [customer] table is
    out of its reach. *)
Definition on_site {A} (m : M A) (s : site) : outcome A * site :=
  let (o, g) := m (app s) in
  (o, {| app := g; customers := customers s |}).

(** A stand-in hashing pair to run the two views on: the password, a
    separator and the salt, checked by comparing the front of the hash. *)
Definition salted_hash (password salt : string) : string :=
  password ++ "$" ++ salt.

Definition salted_check (pwhash password : string) : bool :=
  String.prefix (password ++ "$") pwhash.

Definition ada : Customer.t :=
  {| Customer.name := "Ada"; Customer.email := "ada@example.org";
     Customer.password := salted_hash "s3cret" "a1b2c3d4" |}.

(** ** What the cart does hold *)

(** A quantity that [int()] reads as a positive number: a positive [int],
    or a [str] spelling one. *)
Definition reads_positive (v : pyval) : Prop :=
  exists q, py_int v = Returned q /\ 0 < q.

Definition quantities_readable (c : Dict.t) : Prop :=
  Forall (fun kv => reads_positive (snd kv)) c.

(** The keys [get_line_items] can resolve in a catalog of [n] meals: 1 to
    [n], and 0, which reads the last meal, when there is one. *)
Definition resolvable (n : nat) (item : nat) : bool :=
  ((item <=? n) && (1 <=? n))%nat.

(** The requests that take the set path of [update_quantity]: any method
    but GET. *)
Definition sets_quantity (rq : request) : bool :=
  match rq with
  | ReqUpdateQuantity _ GET _ => false
  | ReqUpdateQuantity _ _ _ => true
  | _ => false
  end.

(** ** Several visitors *)






(** ** The request checkout sends *)

(** The keyword arguments [create_checkout_session] passes for the line
    items [items], and the globals once the call is on the log. *)
Definition checkout_request (items : list LineItem) : CheckoutRequest :=
  {| line_items := items;
     mode := "payment";
     success_url := "http://127.0.0.1:4242/order/success";
     cancel_url := "http://127.0.0.1:4242/cancel" |}.

Definition with_stripe_call (rq : CheckoutRequest) (g : globals) : globals :=
  {| meals := meals g; cart := cart g;
     is_authenticated := is_authenticated g;
     flashes := flashes g;
     stripe_calls := stripe_calls g ++ [rq] |}.

(** * Properties *)

Ltac run_view :=
  unfold bind, lift, ret, raise, read_cart, write_cart, read_meals,
    current_user_is_authenticated, flash, logout_user, call_get_line_items;
  simpl.

(** ** Lists and dicts *)

Lemma py_list_getitem_nat {A} (l : list A) (i : nat) :
  py_list_getitem l (Z.of_nat i) =
  match nth_error l i with
  | Some a => Returned a
  | None => Raised IndexError
  end.
Proof.
  unfold py_list_getitem.
  replace (Z.of_nat i <? 0) with false by (symmetry; apply Z.ltb_ge; lia).
  rewrite Nat2Z.id.
  destruct (nth_error l i) eqn:E.
  - assert (i < List.length l)%nat by (apply nth_error_Some; congruence).
    replace (0 <=? Z.of_nat i) with true by (symmetry; apply Z.leb_le; lia).
    replace (Z.of_nat i <? Z.of_nat (List.length l)) with true
      by (symmetry; apply Z.ltb_lt; lia).
    reflexivity.
  - destruct ((0 <=? Z.of_nat i) && (Z.of_nat i <? Z.of_nat (List.length l)));
      reflexivity.
Qed.

Module DictFacts.

Lemma get_set_same k v d : Dict.get k (Dict.set k v d) = Some v.
Proof.
  induction d as [|[k' v'] d IH]; simpl.
  - now rewrite Nat.eqb_refl.
  - destruct (Nat.eqb k k') eqn:E; simpl; rewrite ?Nat.eqb_refl, ?E; auto.
Qed.

Lemma get_set_other k k' v d :
  k' <> k -> Dict.get k' (Dict.set k v d) = Dict.get k' d.
Proof.
  intros Hne. induction d as [|[k0 v0] d IH]; simpl.
  - destruct (Nat.eqb k' k) eqn:E; auto.
    apply Nat.eqb_eq in E; contradiction.
  - destruct (Nat.eqb k k0) eqn:E; simpl.
    + apply Nat.eqb_eq in E; subst k0.
      destruct (Nat.eqb k' k) eqn:E'; auto.
      apply Nat.eqb_eq in E'; contradiction.
    + destruct (Nat.eqb k' k0); auto.
Qed.

Lemma get_remove_same k d : Dict.get k (Dict.remove k d) = None.
Proof.
  induction d as [|[k' v'] d IH]; simpl; auto.
  destruct (Nat.eqb k k') eqn:E; simpl; auto.
  now rewrite E.
Qed.

Lemma get_remove_other k k' d :
  k' <> k -> Dict.get k' (Dict.remove k d) = Dict.get k' d.
Proof.
  intros Hne. induction d as [|[k0 v0] d IH]; simpl; auto.
  destruct (Nat.eqb k k0) eqn:E; simpl.
  - apply Nat.eqb_eq in E; subst k0.
    destruct (Nat.eqb k' k) eqn:E'; auto.
    apply Nat.eqb_eq in E'; contradiction.
  - destruct (Nat.eqb k' k0); auto.
Qed.

Lemma get_in_keys k d : In k (Dict.keys d) <-> Dict.get k d <> None.
Proof.
  induction d as [|[k' v'] d IH]; simpl.
  - split; [tauto | congruence].
  - destruct (Nat.eqb k k') eqn:E.
    + apply Nat.eqb_eq in E; subst. split; [congruence | auto].
    + apply Nat.eqb_neq in E. rewrite <- IH.
      split; [intros [H|H]; [congruence | auto] | auto].
Qed.

Lemma keys_set_present k v d :
  In k (Dict.keys d) -> Dict.keys (Dict.set k v d) = Dict.keys d.
Proof.
  induction d as [|[k' v'] d IH]; simpl; [tauto|].
  intros H. destruct (Nat.eqb k k') eqn:E; simpl.
  - apply Nat.eqb_eq in E; now subst.
  - apply Nat.eqb_neq in E. f_equal. apply IH.
    destruct H; [congruence | assumption].
Qed.

Lemma keys_set_absent k v d :
  ~ In k (Dict.keys d) -> Dict.keys (Dict.set k v d) = (Dict.keys d ++ [k])%list.
Proof.
  induction d as [|[k' v'] d IH]; simpl; auto.
  intros H. destruct (Nat.eqb k k') eqn:E; simpl.
  - apply Nat.eqb_eq in E; subst; tauto.
  - f_equal. apply IH. tauto.
Qed.

Lemma keys_remove k d :
  Dict.keys (Dict.remove k d) =
  filter (fun k' => negb (Nat.eqb k k')) (Dict.keys d).
Proof.
  induction d as [|[k' v'] d IH]; simpl; auto.
  destruct (Nat.eqb k k'); simpl; now rewrite IH.
Qed.

(** The operations keep a key from occurring twice. *)
Lemma wf_set k v d : Dict.wf d -> Dict.wf (Dict.set k v d).
Proof.
  unfold Dict.wf. intros H.
  destruct (in_dec Nat.eq_dec k (Dict.keys d)) as [Hin|Hout].
  - now rewrite keys_set_present.
  - rewrite keys_set_absent by assumption.
    apply NoDup_app; auto.
    + constructor; [simpl; tauto | constructor].
    + intros x Hx [Hk|[]]. subst. contradiction.
Qed.

Lemma wf_remove k d : Dict.wf d -> Dict.wf (Dict.remove k d).
Proof.
  unfold Dict.wf. rewrite keys_remove. apply NoDup_filter.
Qed.

End DictFacts.

(** ** The line-item deriver *)

Lemma get_line_items_loop_spec ms entries items ids :
  get_line_items_loop ms entries items ids =
  match line_items_by_position ms entries with
  | Returned l => Returned ((items ++ l)%list, (ids ++ Dict.keys entries)%list)
  | Raised e => Raised e
  end.
Proof.
  revert items ids.
  induction entries as [|[item qty] rest IH]; intros items ids; simpl.
  - now rewrite !app_nil_r.
  - unfold meal_at. destruct (py_list_getitem ms (Z.of_nat item - 1)); auto.
    rewrite IH. fold (line_item_of a qty).
    destruct (line_items_by_position ms rest); auto.
    now rewrite <- !app_assoc.
Qed.

Lemma get_line_items_spec ms c :
  get_line_items ms c =
  match line_items_by_position ms c with
  | Returned l => Returned (l, Dict.keys c)
  | Raised e => Raised e
  end.
Proof. unfold get_line_items. now rewrite get_line_items_loop_spec. Qed.

Lemma find_meal_offset ms : forall base,
  (forall i m, nth_error ms i = Some m -> Meal.id m = (base + i)%nat) ->
  forall i m, nth_error ms i = Some m -> find_meal ms (base + i) = Some m.
Proof.
  induction ms as [|m0 ms IH]; intros base Hpos i m Hnth.
  - destruct i; discriminate.
  - simpl. rewrite (Hpos 0%nat m0 eq_refl).
    destruct i as [|i]; simpl in Hnth.
    + rewrite Nat.eqb_refl. exact Hnth.
    + replace (Nat.eqb (base + 0) (base + S i)) with false
        by (symmetry; apply Nat.eqb_neq; lia).
      replace (base + S i)%nat with (S base + i)%nat by lia.
      apply IH; auto.
      intros j m' Hj. rewrite (Hpos (S j) m' Hj). lia.
Qed.

Lemma find_meal_by_position ms i m :
  ids_by_position ms -> nth_error ms i = Some m -> find_meal ms (S i) = Some m.
Proof.
  intros Hpos Hnth. apply (find_meal_offset ms 1%nat); auto.
Qed.

Lemma meal_at_by_position ms i :
  meal_at ms (S i) =
  match nth_error ms i with
  | Some m => Returned m
  | None => Raised IndexError
  end.
Proof.
  unfold meal_at.
  replace (Z.of_nat (S i) - 1) with (Z.of_nat i) by lia.
  apply py_list_getitem_nat.
Qed.

Lemma catalog_id_position ms k :
  ids_by_position ms -> In k (catalog_ids ms) ->
  exists i m, k = S i /\ nth_error ms i = Some m.
Proof.
  intros Hpos Hin. unfold catalog_ids in Hin.
  apply in_map_iff in Hin. destruct Hin as [m [Hid Hin]].
  apply In_nth_error in Hin. destruct Hin as [i Hi].
  exists i, m. split; auto. rewrite <- Hid. now apply Hpos.
Qed.

(** A key past the end of the catalog list raises [IndexError]; the key 0
    reads [meals[-1]], the last meal of the list. *)
Lemma meal_at_past_end ms item :
  (List.length ms < item)%nat -> meal_at ms item = Raised IndexError.
Proof.
  intros H. destruct item as [|i]; [lia|].
  rewrite meal_at_by_position.
  replace (nth_error ms i) with (@None Meal.t); auto.
  symmetry. apply nth_error_None. lia.
Qed.

Lemma meal_at_zero ms m :
  meal_at (ms ++ [m]) 0 = Returned m.
Proof.
  unfold meal_at. change (Z.of_nat 0 - 1) with (-1).
  unfold py_list_getitem.
  assert (Hn : Z.of_nat (List.length (ms ++ [m]))
               = Z.of_nat (List.length ms) + 1)
    by (rewrite length_app, Nat2Z.inj_add; reflexivity).
  rewrite Hn. cbv zeta. change (-1 <? 0) with true. cbv iota.
  replace (-1 + (Z.of_nat (List.length ms) + 1))
    with (Z.of_nat (List.length ms)) by lia.
  replace (0 <=? Z.of_nat (List.length ms)) with true
    by (symmetry; apply Z.leb_le; lia).
  replace (Z.of_nat (List.length ms) <? Z.of_nat (List.length ms) + 1)
    with true by (symmetry; apply Z.ltb_lt; lia).
  cbn [andb]. rewrite Nat2Z.id.
  rewrite nth_error_app2 by lia. now rewrite Nat.sub_diag.
Qed.

(** *** C1: lookup by id *)

(** C1, counterexample: with the catalog listed as [Salad (id 2); Soup
    (id 1)] and the cart [{1: 1}], whose only key is an existing id,
    [get_line_items] reads [meals[0]] and returns the Salad line, not the
    line of the item with id 1. *)
Lemma line_items_by_id_counterexample :
  ~ line_items_by_id_claim [salad; soup] [(1%nat, PyInt 1)].
Proof.
  intros [H _].
  destruct H as [[l [Hspec Hcode]] _].
  - intros k [Hk|[]]. subst k. simpl. auto.
  - vm_compute in Hspec. vm_compute in Hcode.
    inversion Hspec; subst l. discriminate Hcode.
Qed.

Lemma line_items_by_position_by_id ms c :
  ids_by_position ms ->
  (forall k, In k (Dict.keys c) -> In k (catalog_ids ms)) ->
  exists l, spec_derive_line_items ms c = Returned l /\
            line_items_by_position ms c = Returned l.
Proof.
  intros Hpos. induction c as [|[item qty] rest IH]; intros Hkeys; simpl.
  - exists []. auto.
  - destruct (catalog_id_position ms item Hpos) as [i [m [Hi Hnth]]].
    { apply Hkeys. simpl. auto. }
    subst item. rewrite meal_at_by_position, Hnth.
    rewrite (find_meal_by_position ms i m Hpos Hnth).
    destruct IH as [l [Hs Hp]].
    { intros k Hk. apply Hkeys. simpl. auto. }
    rewrite Hs, Hp. eauto.
Qed.

(** C1, as amended: when the catalog list holds the item of id [i] at
    position [i - 1], every cart whose keys are existing ids gets, entry by
    entry and in cart order, the line item of the CatalogItem with that id,
    and no failure. *)
Theorem get_line_items_by_id_when_positional ms c :
  ids_by_position ms ->
  (forall k, In k (Dict.keys c) -> In k (catalog_ids ms)) ->
  exists l, spec_derive_line_items ms c = Returned l /\
            get_line_items ms c = Returned (l, Dict.keys c).
Proof.
  intros Hpos Hkeys.
  destruct (line_items_by_position_by_id ms c Hpos Hkeys) as [l [Hs Hp]].
  exists l. split; auto.
  now rewrite get_line_items_spec, Hp.
Qed.

Lemma ids_by_position_example : ids_by_position [soup; salad].
Proof.
  intros [|[|[|i]]] m H; simpl in H; inversion H; reflexivity.
Qed.

Lemma get_line_items_by_id_when_positional_witness :
  exists l,
    spec_derive_line_items [soup; salad] [(2%nat, PyInt 1); (1%nat, PyInt 2)]
      = Returned l /\
    get_line_items [soup; salad] [(2%nat, PyInt 1); (1%nat, PyInt 2)]
      = Returned (l, [2%nat; 1%nat]).
Proof.
  apply (get_line_items_by_id_when_positional
           [soup; salad] [(2%nat, PyInt 1); (1%nat, PyInt 2)]).
  - exact ids_by_position_example.
  - simpl. intros k [H|[H|[]]]; subst; auto.
Defined.

(** *** C4: the unit amount *)

(** C4, counterexample: for a meal priced 4.35 the unit amount is the float
    434.99999999999994 (7652600929320959 * 2^-44), not the integer 435. *)
Lemma unit_amount_rounded_counterexample :
  ~ unit_amount_rounded_claim [stew] [(1%nat, PyInt 1)].
Proof.
  intros H.
  pose proof (H _ _ eq_refl) as F.
  inversion F as [|kv li c' items' [m [z [Hm [_ [Hz Hu]]]]] F']; subst.
  vm_compute in Hm. inversion Hm; subst m. clear Hm.
  vm_compute in Hz. inversion Hz; subst z. clear Hz.
  vm_compute in Hu. discriminate Hu.
Qed.

Lemma line_items_by_position_Forall2 ms c l :
  line_items_by_position ms c = Returned l ->
  Forall2
    (fun kv li =>
       exists m, meal_at ms (fst kv) = Returned m /\ li = line_item_of m (snd kv))
    c l.
Proof.
  revert l. induction c as [|[item qty] rest IH]; intros l H; simpl in H.
  - inversion H. constructor.
  - destruct (meal_at ms item) as [m|] eqn:Hm; [|discriminate].
    destruct (line_items_by_position ms rest) as [l'|]; [|discriminate].
    inversion H; subst. constructor; eauto.
Qed.

(** C4, as amended: every line item carries as unit amount the binary64
    product [price * 100] of the meal it was derived from, with its name
    and the quantity of the cart entry; the product is passed on as it is,
    without rounding. *)
Theorem unit_amount_is_float_product ms c items ids :
  get_line_items ms c = Returned (items, ids) ->
  Forall2
    (fun kv li =>
       exists m,
         meal_at ms (fst kv) = Returned m /\
         name (product_data (price_data li)) = Meal.name m /\
         unit_amount_decimal (price_data li)
           = PyFloat.mul (Meal.price m) (PyFloat.of_Z 100) /\
         quantity li = snd kv)
    c items.
Proof.
  rewrite get_line_items_spec.
  destruct (line_items_by_position ms c) as [l|] eqn:Hl; [|discriminate].
  intros H. inversion H; subst.
  apply line_items_by_position_Forall2 in Hl.
  eapply Forall2_impl; [|exact Hl].
  intros kv li [m [Hm Hli]]. exists m. subst li. simpl. auto.
Qed.

Lemma unit_amount_is_float_product_witness :
  Forall2
    (fun kv li =>
       exists m,
         meal_at [stew] (fst kv) = Returned m /\
         name (product_data (price_data li)) = Meal.name m /\
         unit_amount_decimal (price_data li)
           = PyFloat.mul (Meal.price m) (PyFloat.of_Z 100) /\
         quantity li = snd kv)
    [(1%nat, PyInt 3)]
    [line_item_of stew (PyInt 3)].
Proof.
  apply (unit_amount_is_float_product [stew] [(1%nat, PyInt 3)]
           [line_item_of stew (PyInt 3)] [1%nat]).
  reflexivity.
Defined.

(** *** C5: the worked example *)

(** C5: with the catalog [Soup 4.50 (id 1); Salad 6.00 (id 2)] and an empty
    cart, two requests to /update-cart/1 and one to /update-cart/2 leave the
    cart view with the line items Soup, 450, 2 and Salad, 600, 1, in that
    order, and the total 15.0. *)
Theorem example_cart_line_items_and_total :
  forall stripe,
    serve stripe
      [ReqUpdateCart 1; ReqUpdateCart 1; ReqUpdateCart 2; ReqShoppingCart]
      (startup [soup; salad])
    = ([Returned (redirect "/"); Returned (redirect "/");
        Returned (redirect "/");
        Returned
          (RenderTemplate "shopping_cart.html"
             (CartContext
                (NumFloat (PyFloat.of_Z 15))
                [ {| price_data :=
                       {| currency := "usd";
                          product_data := {| name := "Soup" |};
                          unit_amount_decimal := PyFloat.of_Z 450 |};
                     quantity := PyInt 2 |};
                  {| price_data :=
                       {| currency := "usd";
                          product_data := {| name := "Salad" |};
                          unit_amount_decimal := PyFloat.of_Z 600 |};
                     quantity := PyInt 1 |} ]
                [1%nat; 2%nat]))],
       with_cart [(1%nat, PyInt 2); (2%nat, PyInt 1)] (startup [soup; salad])).
Proof. intros stripe. vm_compute. reflexivity. Qed.

(** ** Cart operations *)

Lemma add_to_cart_fresh g meal_id :
  Dict.get meal_id (cart g) = None ->
  add_to_cart meal_id g =
  (Returned (redirect (url_for EpHome)),
   with_cart (Dict.set meal_id (PyInt 1) (cart g)) g).
Proof. intros H. unfold add_to_cart. run_view. now rewrite H. Qed.

Lemma add_to_cart_again g meal_id n :
  Dict.get meal_id (cart g) = Some (PyInt n) -> n <> 0 ->
  add_to_cart meal_id g =
  (Returned (redirect (url_for EpHome)),
   with_cart (Dict.set meal_id (PyInt (n + 1)) (cart g)) g).
Proof.
  intros H Hn. unfold add_to_cart, Dict.getitem. run_view. rewrite H. simpl.
  replace (n =? 0) with false by (symmetry; apply Z.eqb_neq; exact Hn).
  reflexivity.
Qed.

(** A quantity stored as a [str] makes the increment raise, the cart left
    as it was. *)
Lemma add_to_cart_on_str g meal_id s :
  Dict.get meal_id (cart g) = Some (PyStr s) -> s <> "" ->
  add_to_cart meal_id g = (Raised TypeError, g).
Proof.
  intros H Hs. unfold add_to_cart, Dict.getitem. run_view. rewrite H. simpl.
  replace (String.eqb s "") with false
    by (symmetry; apply String.eqb_neq; exact Hs).
  reflexivity.
Qed.

Lemma serve_cons stripe rq rest g :
  serve stripe (rq :: rest) g =
  (fst (dispatch stripe rq g) :: fst (serve stripe rest (snd (dispatch stripe rq g))),
   snd (serve stripe rest (snd (dispatch stripe rq g)))).
Proof.
  simpl. destruct (dispatch stripe rq g) as [o g']. simpl.
  destruct (serve stripe rest g') as [os g'']. reflexivity.
Qed.

Lemma serve_increments_from stripe meal_id : forall N g n,
  0 < n -> Dict.get meal_id (cart g) = Some (PyInt n) ->
  exists g',
    serve stripe (repeat (ReqUpdateCart meal_id) N) g
      = (repeat (Returned (redirect (url_for EpHome))) N, g') /\
    Dict.get meal_id (cart g') = Some (PyInt (n + Z.of_nat N)) /\
    (forall k, k <> meal_id -> Dict.get k (cart g') = Dict.get k (cart g)) /\
    meals g' = meals g.
Proof.
  induction N as [|N IH]; intros g n Hn Hget.
  - exists g. simpl. rewrite Z.add_0_r. auto.
  - destruct (IH (with_cart (Dict.set meal_id (PyInt (n + 1)) (cart g)) g)
                (n + 1)) as [g' [Hs [Hq [Hk Hm]]]].
    + lia.
    + simpl. apply DictFacts.get_set_same.
    + exists g'. cbn [repeat]. rewrite serve_cons. simpl dispatch.
      rewrite (add_to_cart_again g meal_id n Hget) by lia.
      simpl fst. simpl snd. rewrite Hs. simpl.
      repeat split; auto.
      * rewrite Hq. f_equal. f_equal. lia.
      * intros k Hne. rewrite Hk by assumption. simpl.
        now apply DictFacts.get_set_other.
Qed.

(** *** Well-formedness and the quantities held *)

Lemma quantities_positive_set k v c :
  positive_int v -> quantities_positive c ->
  quantities_positive (Dict.set k v c).
Proof.
  intros Hv. unfold quantities_positive.
  induction c as [|[k' v'] c IH]; intros H; simpl.
  - constructor; auto.
  - inversion H; subst.
    destruct (Nat.eqb k k'); constructor; auto.
Qed.

Lemma quantities_positive_remove k c :
  quantities_positive c -> quantities_positive (Dict.remove k c).
Proof.
  unfold quantities_positive, Dict.remove. intros H.
  apply Forall_forall. intros kv Hin. apply filter_In in Hin.
  destruct Hin as [Hin _]. revert kv Hin. now apply Forall_forall.
Qed.

Lemma quantities_positive_get k c v :
  quantities_positive c -> Dict.get k c = Some v -> positive_int v.
Proof.
  unfold quantities_positive.
  induction c as [|[k' v'] c IH]; intros H Hget; simpl in Hget.
  - discriminate.
  - inversion H; subst. destruct (Nat.eqb k k').
    + inversion Hget; subst. assumption.
    + auto.
Qed.

(** On a cart of positive integers the increment returns and keeps the
    cart one of positive integers. *)
Lemma add_to_cart_keeps_positive g meal_id :
  quantities_positive (cart g) ->
  fst (add_to_cart meal_id g) = Returned (redirect (url_for EpHome)) /\
  quantities_positive (cart (snd (add_to_cart meal_id g))).
Proof.
  intros H. destruct (Dict.get meal_id (cart g)) as [v|] eqn:Hget.
  - destruct (quantities_positive_get _ _ _ H Hget) as [z [-> Hz]].
    rewrite (add_to_cart_again g meal_id z Hget) by lia. simpl.
    split; auto. apply quantities_positive_set; auto.
    exists (z + 1). split; auto. lia.
  - rewrite (add_to_cart_fresh g meal_id Hget). simpl.
    split; auto. apply quantities_positive_set; auto.
    exists 1. split; auto. lia.
Qed.

(** Each view leaves the cart as it was, or sets one key, or removes one
    key, or empties it. *)
Lemma dispatch_cart_step stripe rq g :
  let c' := cart (snd (dispatch stripe rq g)) in
  c' = cart g \/
  (exists k v, c' = Dict.set k v (cart g)) \/
  (exists k, c' = Dict.remove k (cart g)) \/
  c' = Dict.empty.
Proof.
  destruct rq; simpl.
  - auto.
  - unfold add_to_cart, Dict.getitem. run_view.
    destruct (Dict.get meal_id (cart g)) as [v|]; simpl.
    + destruct (truthy v); simpl; [|right; left; eauto].
      destruct (py_add_one v); simpl; [right; left; eauto | auto].
    + right; left; eauto.
  - unfold shopping_cart. run_view.
    destruct (get_line_items (meals g) (cart g)) as [r|]; simpl; auto.
    destruct (sum_lines (NumInt 0) (fst r)); simpl; auto.
  - unfold update_quantity, update_quantity_at, Dict.pop. run_view.
    destruct (py_list_getitem (Dict.keys (cart g)) (Z.of_nat item_idx))
      as [k|]; simpl; auto.
    destruct method; simpl.
    + destruct (Dict.get k (cart g)); simpl; eauto.
    + destruct (form_getitem form (quantity_field item_idx)) as [raw|];
        simpl; auto.
      destruct (py_int_of_str raw) as [q|]; simpl; auto.
      destruct (0 <? q); simpl; [right; left; eauto|].
      destruct (Dict.get k (cart g)); simpl; eauto.
    + destruct (form_getitem form (quantity_field item_idx)) as [raw|];
        simpl; auto.
      destruct (py_int_of_str raw) as [q|]; simpl; auto.
      destruct (0 <? q); simpl; [right; left; eauto|].
      destruct (Dict.get k (cart g)); simpl; eauto.
  - unfold create_checkout_session, call_stripe. run_view.
    destruct (is_authenticated g); simpl; auto.
    destruct (Dict.nonempty (cart g)); simpl; auto.
    destruct (get_line_items (meals g) (cart g)); simpl; auto.
    destruct (stripe _); simpl; auto.
  - auto.
  - auto.
  - auto.
Qed.

(** The association list stays a dict: no view makes a key occur twice. *)
Lemma dispatch_keeps_wf stripe rq g :
  Dict.wf (cart g) -> Dict.wf (cart (snd (dispatch stripe rq g))).
Proof.
  intros H.
  destruct (dispatch_cart_step stripe rq g)
    as [E|[[k [v E]]|[[k E]|E]]]; rewrite E.
  - assumption.
  - now apply DictFacts.wf_set.
  - now apply DictFacts.wf_remove.
  - constructor.
Qed.

(** *** C3: repeated increments *)

(** C3, counterexample: with the catalog [Soup (id 1); Salad (id 2)] a
    request to /update-cart/99 returns its redirect and stores 99 in the
    cart; nothing compares the id with the catalog. *)
Lemma increment_claim_counterexample :
  ~ increment_claim (startup [soup; salad]) 99 0.
Proof.
  intros [_ H].
  assert (Hout : ~ In 99%nat (catalog_ids (meals (startup [soup; salad])))).
  { simpl. intros [E|[E|[]]]; discriminate E. }
  specialize (H Hout). vm_compute in H. discriminate H.
Qed.

(** C3, as amended: from a cart without [meal_id], [N] requests to
    /update-cart/meal_id all return their redirect and leave [meal_id] with
    the quantity [N] (no entry when [N] is 0) and every other entry as it
    was, whether or not the catalog has an item of that id: the view never
    looks at the catalog and never fails with [InvalidItem]. *)
Theorem increments_count stripe meal_id N g :
  Dict.get meal_id (cart g) = None ->
  exists g',
    serve stripe (repeat (ReqUpdateCart meal_id) N) g
      = (repeat (Returned (redirect (url_for EpHome))) N, g') /\
    Dict.get meal_id (cart g')
      = match N with O => None | S _ => Some (PyInt (Z.of_nat N)) end /\
    (forall k, k <> meal_id -> Dict.get k (cart g') = Dict.get k (cart g)) /\
    meals g' = meals g.
Proof.
  intros Hnone. destruct N as [|N].
  - exists g. simpl. auto.
  - destruct (serve_increments_from stripe meal_id N
                (with_cart (Dict.set meal_id (PyInt 1) (cart g)) g) 1)
      as [g' [Hs [Hq [Hk Hm]]]].
    + lia.
    + simpl. apply DictFacts.get_set_same.
    + exists g'. cbn [repeat]. rewrite serve_cons. simpl dispatch.
      rewrite (add_to_cart_fresh g meal_id Hnone).
      simpl fst. simpl snd. rewrite Hs.
      repeat split; auto.
      * rewrite Hq. f_equal. f_equal. lia.
      * intros k Hne. rewrite Hk by assumption. simpl.
        now apply DictFacts.get_set_other.
Qed.

Lemma increments_count_witness :
  exists g',
    serve stripe_ok (repeat (ReqUpdateCart 7) 3) (startup [soup; salad])
      = (repeat (Returned (redirect (url_for EpHome))) 3, g') /\
    Dict.get 7 (cart g') = Some (PyInt 3) /\
    (forall k, k <> 7%nat ->
               Dict.get k (cart g') = Dict.get k (cart (startup [soup; salad]))) /\
    meals g' = meals (startup [soup; salad]).
Proof.
  apply (increments_count stripe_ok 7 3 (startup [soup; salad])).
  reflexivity.
Defined.

(** *** Setting and removing by position *)

Lemma update_quantity_out_of_range g item_idx method form :
  nth_error (Dict.keys (cart g)) item_idx = None ->
  update_quantity item_idx method form g = (Raised IndexError, g).
Proof.
  intros H. unfold update_quantity. run_view.
  now rewrite py_list_getitem_nat, H.
Qed.

Lemma update_quantity_in_range g item_idx method form k :
  nth_error (Dict.keys (cart g)) item_idx = Some k ->
  update_quantity item_idx method form g =
  match update_quantity_at k item_idx method form g with
  | (Returned _, g') => (Returned (redirect (url_for EpShoppingCart)), g')
  | (Raised e, g') => (Raised e, g')
  end.
Proof.
  intros H. unfold update_quantity. run_view.
  rewrite py_list_getitem_nat, H.
  destruct (update_quantity_at k item_idx method form g) as [[u|e] g'];
    reflexivity.
Qed.

Lemma nth_key_present (c : Dict.t) i k :
  nth_error (Dict.keys c) i = Some k ->
  exists v, Dict.get k c = Some v.
Proof.
  intros H. apply nth_error_In in H. apply DictFacts.get_in_keys in H.
  destruct (Dict.get k c) as [v|]; [eauto | congruence].
Qed.

(** What [update_quantity_at] does to a key that is in the cart. *)
Lemma update_quantity_at_get g k item_idx form v :
  Dict.get k (cart g) = Some v ->
  update_quantity_at k item_idx GET form g =
  (Returned tt, with_cart (Dict.remove k (cart g)) g).
Proof.
  intros H. unfold update_quantity_at, Dict.pop. run_view. now rewrite H.
Qed.

Lemma update_quantity_at_form g k item_idx method form v :
  method <> GET ->
  Dict.get k (cart g) = Some v ->
  update_quantity_at k item_idx method form g =
  match form_getitem form (quantity_field item_idx) with
  | Raised e => (Raised e, g)
  | Returned raw =>
      match py_int_of_str raw with
      | Raised e => (Raised e, g)
      | Returned qty =>
          if 0 <? qty
          then (Returned tt, with_cart (Dict.set k (PyStr raw) (cart g)) g)
          else (Returned tt, with_cart (Dict.remove k (cart g)) g)
      end
  end.
Proof.
  intros Hm H. unfold update_quantity_at, Dict.pop. run_view.
  destruct method; [congruence | |];
    (destruct (form_getitem form (quantity_field item_idx))
       as [raw|e] eqn:Hf; [|reflexivity];
     destruct (py_int_of_str raw) as [qty|e]; [|reflexivity];
     destruct (0 <? qty); [reflexivity|];
     now rewrite H).
Qed.

(** Whatever it does, [update_quantity_at k] leaves the entries of the
    other keys alone. *)
Lemma update_quantity_at_frame g k item_idx method form k' :
  k' <> k ->
  Dict.get k' (cart (snd (update_quantity_at k item_idx method form g)))
  = Dict.get k' (cart g).
Proof.
  intros Hne.
  destruct (Dict.get k (cart g)) as [v|] eqn:Hk.
  - destruct method.
    + rewrite (update_quantity_at_get g k item_idx form v Hk). simpl.
      now apply DictFacts.get_remove_other.
    + rewrite (update_quantity_at_form g k item_idx HEAD form v) by
        (congruence || assumption).
      destruct (form_getitem form (quantity_field item_idx)); [|reflexivity].
      destruct (py_int_of_str a); [|reflexivity].
      destruct (0 <? a0); simpl.
      * now apply DictFacts.get_set_other.
      * now apply DictFacts.get_remove_other.
    + rewrite (update_quantity_at_form g k item_idx POST form v) by
        (congruence || assumption).
      destruct (form_getitem form (quantity_field item_idx)); [|reflexivity].
      destruct (py_int_of_str a); [|reflexivity].
      destruct (0 <? a0); simpl.
      * now apply DictFacts.get_set_other.
      * now apply DictFacts.get_remove_other.
  - unfold update_quantity_at, Dict.pop. run_view. rewrite Hk.
    destruct method; simpl; auto;
      (destruct (form_getitem form (quantity_field item_idx));
       simpl; [|reflexivity];
       destruct (py_int_of_str a); simpl; [|reflexivity];
       destruct (0 <? a0); simpl; [|reflexivity];
       now apply DictFacts.get_set_other).
Qed.










(** *** C2: setting a quantity *)




(** *** C8: what the cart holds *)

Lemma py_int_of_str_nonempty raw q :
  py_int_of_str raw = Returned q -> raw <> "".
Proof. intros H ->. discriminate H. Qed.

(** The set path, for a value reading as a positive number, leaves a [str]
    under the key, so the cart is no longer one of positive integers ... *)
Lemma set_quantity_stores_str g item_idx form k raw q :
  nth_error (Dict.keys (cart g)) item_idx = Some k ->
  form_getitem form (quantity_field item_idx) = Returned raw ->
  py_int_of_str raw = Returned q -> 0 < q ->
  Dict.get k (cart (snd (update_quantity item_idx POST form g)))
    = Some (PyStr raw) /\
  ~ quantities_positive (cart (snd (update_quantity item_idx POST form g))).
Proof.
  intros Hnth Hform Hint Hq.
  destruct (nth_key_present _ _ _ Hnth) as [v Hv].
  rewrite (update_quantity_in_range g item_idx POST form k Hnth).
  rewrite (update_quantity_at_form g k item_idx POST form v) by
    (congruence || assumption).
  rewrite Hform, Hint.
  replace (0 <? q) with true by (symmetry; apply Z.ltb_lt; exact Hq).
  simpl. split.
  - apply DictFacts.get_set_same.
  - intros Hpos.
    destruct (quantities_positive_get k _ (PyStr raw) Hpos
                (DictFacts.get_set_same k (PyStr raw) (cart g)))
      as [z [Hz _]].
    discriminate Hz.
Qed.

(** ... and the next increment of that key raises [TypeError]. *)
Lemma set_quantity_then_increment_raises g item_idx form k raw q :
  nth_error (Dict.keys (cart g)) item_idx = Some k ->
  form_getitem form (quantity_field item_idx) = Returned raw ->
  py_int_of_str raw = Returned q -> 0 < q ->
  fst (add_to_cart k (snd (update_quantity item_idx POST form g)))
    = Raised TypeError.
Proof.
  intros Hnth Hform Hint Hq.
  destruct (set_quantity_stores_str g item_idx form k raw q
              Hnth Hform Hint Hq) as [Hget _].
  rewrite (add_to_cart_on_str _ k raw Hget (py_int_of_str_nonempty raw q Hint)).
  reflexivity.
Qed.

(** C8, the failing run: after /update-cart/1, a POST of [quantity-0=3] to
    /update-quantity/0 stores the form string ["3"] under id 1, and the next
    /update-cart/1 raises [TypeError] on ["3" + 1]. *)
Theorem increment_after_set_quantity_raises :
  serve stripe_ok
    [ReqUpdateCart 1;
     ReqUpdateQuantity 0 POST [("quantity-0", "3")];
     ReqUpdateCart 1]
    (startup [soup; salad])
  = ([Returned (redirect "/");
      Returned (redirect "/shopping-cart");
      Raised TypeError],
     with_cart [(1%nat, PyStr "3")] (startup [soup; salad])).
Proof. vm_compute. reflexivity. Qed.

(** *** C9: the positional lookup *)

(** C9: with [n] entries in the cart, a request to /update-quantity/i with
    [i >= n] raises [IndexError], which is not one of the cart errors, and
    leaves the globals as they were; with [i < n] it runs on the [i]-th key
    [k] of the cart in iteration order: the rest of the view is run for [k],
    a GET removes the entry of [k], and whatever the method and the form the
    entries of the other keys stay as they were. *)
Theorem update_quantity_by_position g item_idx method form :
  ((List.length (cart g) <= item_idx)%nat ->
   update_quantity item_idx method form g = (Raised IndexError, g) /\
   is_cart_error (fst (update_quantity item_idx method form g)) = false) /\
  ((item_idx < List.length (cart g))%nat ->
   exists k,
     nth_error (Dict.keys (cart g)) item_idx = Some k /\
     update_quantity item_idx method form g =
       match update_quantity_at k item_idx method form g with
       | (Returned _, g') => (Returned (redirect (url_for EpShoppingCart)), g')
       | (Raised e, g') => (Raised e, g')
       end /\
     (method = GET ->
      update_quantity item_idx method form g
      = (Returned (redirect (url_for EpShoppingCart)),
         with_cart (Dict.remove k (cart g)) g)) /\
     (forall k', k' <> k ->
        Dict.get k' (cart (snd (update_quantity item_idx method form g)))
        = Dict.get k' (cart g))).
Proof.
  split; intros Hlen.
  - assert (Hnone : nth_error (Dict.keys (cart g)) item_idx = None).
    { apply nth_error_None. unfold Dict.keys. now rewrite length_map. }
    rewrite (update_quantity_out_of_range g item_idx method form Hnone).
    auto.
  - destruct (nth_error (Dict.keys (cart g)) item_idx) as [k|] eqn:Hnth.
    2:{ apply nth_error_None in Hnth. unfold Dict.keys in Hnth.
        rewrite length_map in Hnth. lia. }
    exists k. split; [reflexivity|].
    pose proof (update_quantity_in_range g item_idx method form k Hnth) as Heq.
    split; [exact Heq|]. split.
    + intros ->. destruct (nth_key_present _ _ _ Hnth) as [v Hv].
      rewrite Heq, (update_quantity_at_get g k item_idx form v Hv).
      reflexivity.
    + intros k' Hne. rewrite Heq.
      pose proof (update_quantity_at_frame g k item_idx method form k' Hne)
        as Hfr.
      destruct (update_quantity_at k item_idx method form g) as [[u|e] g'];
        exact Hfr.
Qed.

Lemma update_quantity_by_position_witness :
  (update_quantity 2 GET []
     (with_cart [(2%nat, PyInt 1); (1%nat, PyInt 4)] (startup [soup; salad]))
   = (Raised IndexError,
      with_cart [(2%nat, PyInt 1); (1%nat, PyInt 4)] (startup [soup; salad])))
  /\
  (exists k,
     nth_error [2%nat; 1%nat] 1 = Some k /\
     update_quantity 1 GET []
       (with_cart [(2%nat, PyInt 1); (1%nat, PyInt 4)] (startup [soup; salad]))
     = (Returned (redirect (url_for EpShoppingCart)),
        with_cart
          (Dict.remove k [(2%nat, PyInt 1); (1%nat, PyInt 4)])
          (with_cart [(2%nat, PyInt 1); (1%nat, PyInt 4)]
             (startup [soup; salad])))).
Proof.
  split.
  - apply (update_quantity_by_position
             (with_cart [(2%nat, PyInt 1); (1%nat, PyInt 4)]
                (startup [soup; salad])) 2 GET []).
    simpl. lia.
  - destruct (update_quantity_by_position
                (with_cart [(2%nat, PyInt 1); (1%nat, PyInt 4)]
                   (startup [soup; salad])) 1 GET []) as [_ H].
    destruct H as [k [Hk [_ [Hget _]]]].
    + simpl. lia.
    + exists k. split; [exact Hk | exact (Hget eq_refl)].
Defined.

(** ** Checkout and its outcome handlers *)

(** *** C6: the success handler clears the cart *)

(** C6: whatever the cart held, it is empty after [order_success]; running
    the handler a second time leaves the globals exactly as the first run
    left them, and on an already empty cart it changes nothing. *)
Theorem order_success_clears_idempotent g :
  cart (snd (order_success g)) = Dict.empty /\
  snd (order_success (snd (order_success g))) = snd (order_success g) /\
  snd (order_success (with_cart Dict.empty g)) = with_cart Dict.empty g.
Proof.
  unfold order_success. run_view. repeat split.
Qed.

(** *** C7: checkout without a session *)

(** C7: without an authenticated session, [create_checkout_session] returns
    a redirect to the login page; the only change to the globals is the
    flashed notice: the cart is as it was and no request has gone to the
    payment provider. *)
Theorem checkout_unauthenticated stripe g :
  is_authenticated g = false ->
  exists g',
    create_checkout_session stripe g
      = (Returned (redirect (url_for EpLogin)), g') /\
    stripe_calls g' = stripe_calls g /\
    cart g' = cart g /\
    meals g' = meals g /\
    is_authenticated g' = false /\
    flashes g' = (flashes g ++ [must_sign_in])%list.
Proof.
  intros Hauth. unfold create_checkout_session. run_view. rewrite Hauth.
  eexists. split; [reflexivity|]. simpl. auto.
Qed.

Lemma checkout_unauthenticated_witness :
  exists g',
    create_checkout_session stripe_ok
      (with_cart [(1%nat, PyInt 2)] (startup [soup; salad]))
      = (Returned (redirect (url_for EpLogin)), g') /\
    stripe_calls g' = [] /\
    cart g' = [(1%nat, PyInt 2)] /\
    meals g' = [soup; salad] /\
    is_authenticated g' = false /\
    flashes g' = [must_sign_in].
Proof.
  apply (checkout_unauthenticated stripe_ok
           (with_cart [(1%nat, PyInt 2)] (startup [soup; salad]))).
  reflexivity.
Defined.

(** *** C10: the success endpoint has no precondition *)

(** C10: a single request to /order/success renders the success page and
    empties the cart, for every provider and every state of the globals:
    signed in or not, cart of any content, and whether or not a checkout
    request was ever sent; nothing but the cart changes. *)
Theorem success_request_empties_cart stripe g :
  serve stripe [ReqOrderSuccess] g
  = ([Returned (RenderTemplate "success.html" NoContext)],
     {| meals := meals g; cart := Dict.empty;
        is_authenticated := is_authenticated g;
        flashes := flashes g; stripe_calls := stripe_calls g |}).
Proof. reflexivity. Qed.

(** * Further properties of the views *)

Ltac unfold_views :=
  unfold home, add_to_cart, shopping_cart, update_quantity,
    update_quantity_at, create_checkout_session, call_stripe, order_success,
    cancel, logout, Dict.getitem, Dict.pop;
  run_view.

Ltac split_view :=
  repeat match goal with
         | |- context [match ?x with _ => _ end] =>
             lazymatch x with
             | context [match _ with _ => _ end] => fail
             | _ => destruct x eqn:?; simpl
             end
         end.

(** ** What a run of requests keeps *)

Lemma serve_app stripe rqs1 rqs2 g :
  serve stripe (rqs1 ++ rqs2) g =
  (fst (serve stripe rqs1 g)
     ++ fst (serve stripe rqs2 (snd (serve stripe rqs1 g))),
   snd (serve stripe rqs2 (snd (serve stripe rqs1 g))))%list.
Proof.
  revert g. induction rqs1 as [|rq rqs1 IH]; intros g.
  - simpl. now destruct (serve stripe rqs2 g).
  - rewrite <- app_comm_cons, !serve_cons, IH. reflexivity.
Qed.

(** An invariant of [dispatch] is one of [serve]. *)
Lemma serve_invariant stripe (P : globals -> Prop) :
  (forall rq g, P g -> P (snd (dispatch stripe rq g))) ->
  forall rqs g, P g -> P (snd (serve stripe rqs g)).
Proof.
  intros Hstep rqs. induction rqs as [|rq rqs IH]; intros g Hg.
  - exact Hg.
  - rewrite serve_cons. simpl snd. apply IH. now apply Hstep.
Qed.

Lemma dispatch_keeps_meals stripe rq g :
  meals (snd (dispatch stripe rq g)) = meals g.
Proof.
  destruct rq; simpl; unfold_views; split_view; reflexivity.
Qed.

Lemma dispatch_keeps_signed_out stripe rq g :
  is_authenticated g = false ->
  is_authenticated (snd (dispatch stripe rq g)) = false /\
  stripe_calls (snd (dispatch stripe rq g)) = stripe_calls g.
Proof.
  intros H. destruct rq; simpl; unfold_views; rewrite ?H; simpl;
    split_view; auto.
Qed.

Lemma Forall_dict_set (P : pyval -> Prop) k v c :
  P v -> Forall (fun kv => P (snd kv)) c ->
  Forall (fun kv => P (snd kv)) (Dict.set k v c).
Proof.
  intros Hv. induction c as [|[k' v'] c IH]; intros H; simpl.
  - constructor; auto.
  - inversion H; subst. destruct (Nat.eqb k k'); constructor; auto.
Qed.

Lemma Forall_dict_remove (P : pyval -> Prop) k c :
  Forall (fun kv => P (snd kv)) c ->
  Forall (fun kv => P (snd kv)) (Dict.remove k c).
Proof.
  unfold Dict.remove. intros H.
  apply Forall_forall. intros kv Hin. apply filter_In in Hin.
  destruct Hin as [Hin _]. revert kv Hin. now apply Forall_forall.
Qed.

Lemma Forall_dict_get (P : pyval -> Prop) k c v :
  Forall (fun kv => P (snd kv)) c -> Dict.get k c = Some v -> P v.
Proof.
  induction c as [|[k' v'] c IH]; intros H Hget; simpl in Hget.
  - discriminate.
  - inversion H; subst. destruct (Nat.eqb k k').
    + inversion Hget; subst. assumption.
    + auto.
Qed.

Lemma add_to_cart_keeps_readable g meal_id :
  quantities_readable (cart g) ->
  quantities_readable (cart (snd (add_to_cart meal_id g))).
Proof.
  intros H. destruct (Dict.get meal_id (cart g)) as [[z|s]|] eqn:Hget.
  - destruct (Forall_dict_get _ _ _ _ H Hget) as [q [Hq Hpos]].
    simpl in Hq. inversion Hq; subst q.
    rewrite (add_to_cart_again g meal_id z Hget) by lia. simpl.
    apply Forall_dict_set; auto.
    exists (z + 1). split; [reflexivity | lia].
  - destruct (Forall_dict_get _ _ _ _ H Hget) as [q [Hq Hpos]].
    simpl in Hq.
    rewrite (add_to_cart_on_str g meal_id s Hget
               (py_int_of_str_nonempty s q Hq)).
    exact H.
  - rewrite (add_to_cart_fresh g meal_id Hget). simpl.
    apply Forall_dict_set; auto.
    exists 1. split; [reflexivity | lia].
Qed.

Lemma update_quantity_keeps_readable g item_idx method form :
  quantities_readable (cart g) ->
  quantities_readable (cart (snd (update_quantity item_idx method form g))).
Proof.
  intros H.
  destruct (nth_error (Dict.keys (cart g)) item_idx) as [k|] eqn:Hnth.
  2:{ now rewrite (update_quantity_out_of_range g item_idx method form Hnth). }
  rewrite (update_quantity_in_range g item_idx method form k Hnth).
  destruct (nth_key_present _ _ _ Hnth) as [v Hv].
  assert (Hform : method <> GET ->
    quantities_readable
      (cart (snd (update_quantity_at k item_idx method form g)))).
  { intros Hm.
    rewrite (update_quantity_at_form g k item_idx method form v Hm Hv).
    destruct (form_getitem form (quantity_field item_idx)) as [raw|];
      [|exact H].
    destruct (py_int_of_str raw) as [q|] eqn:Hint; [|exact H].
    destruct (0 <? q) eqn:Hq; simpl.
    - apply Forall_dict_set; auto.
      exists q. split; [exact Hint | now apply Z.ltb_lt].
    - now apply Forall_dict_remove. }
  assert (Hat : quantities_readable
                  (cart (snd (update_quantity_at k item_idx method form g)))).
  { destruct method; try (apply Hform; congruence).
    rewrite (update_quantity_at_get g k item_idx form v Hv). simpl.
    now apply Forall_dict_remove. }
  destruct (update_quantity_at k item_idx method form g) as [[u|e] g'];
    exact Hat.
Qed.

Lemma dispatch_keeps_readable stripe rq g :
  quantities_readable (cart g) ->
  quantities_readable (cart (snd (dispatch stripe rq g))).
Proof.
  intros H. destruct rq; simpl.
  - exact H.
  - now apply add_to_cart_keeps_readable.
  - unfold_views; split_view; exact H.
  - now apply update_quantity_keeps_readable.
  - unfold_views; split_view; exact H.
  - constructor.
  - exact H.
  - constructor.
Qed.

(** No view writes [meals]: the catalog after any run of requests is the
    one loaded at start-up. *)
Theorem serve_keeps_catalog stripe rqs g :
  meals (snd (serve stripe rqs g)) = meals g.
Proof.
  apply (serve_invariant stripe (fun g' => meals g' = meals g)); auto.
  intros rq g' Hg'. now rewrite dispatch_keeps_meals.
Qed.

Lemma serve_keeps_signed_out stripe rqs g :
  is_authenticated g = false ->
  stripe_calls (snd (serve stripe rqs g)) = stripe_calls g /\
  is_authenticated (snd (serve stripe rqs g)) = false.
Proof.
  intros H.
  apply (serve_invariant stripe
           (fun g' => stripe_calls g' = stripe_calls g /\
                      is_authenticated g' = false)); auto.
  intros rq g' [Hc Ha].
  destruct (dispatch_keeps_signed_out stripe rq g' Ha) as [Ha' Hc'].
  split; congruence.
Qed.

(** While nobody is signed in, no run of requests to these views reaches
    the payment provider, whatever the cart holds, and nobody gets signed
    in by them. *)
Theorem serve_signed_out_never_pays stripe rqs g :
  is_authenticated g = false ->
  stripe_calls (snd (serve stripe rqs g)) = stripe_calls g /\
  is_authenticated (snd (serve stripe rqs g)) = false.
Proof. apply serve_keeps_signed_out. Qed.

Lemma serve_signed_out_never_pays_witness :
  stripe_calls
    (snd (serve stripe_ok
            [ReqUpdateCart 1; ReqCreateCheckoutSession; ReqOrderSuccess;
             ReqCreateCheckoutSession]
            (startup [soup; salad]))) = [] /\
  is_authenticated
    (snd (serve stripe_ok
            [ReqUpdateCart 1; ReqCreateCheckoutSession; ReqOrderSuccess;
             ReqCreateCheckoutSession]
            (startup [soup; salad]))) = false.
Proof.
  apply (serve_signed_out_never_pays stripe_ok
           [ReqUpdateCart 1; ReqCreateCheckoutSession; ReqOrderSuccess;
            ReqCreateCheckoutSession]
           (startup [soup; salad])).
  reflexivity.
Defined.

(** The cart stays a dict through any run of requests: no key comes to
    occur twice. *)
Theorem serve_keeps_keys_unique stripe rqs g :
  Dict.wf (cart g) -> Dict.wf (cart (snd (serve stripe rqs g))).
Proof.
  apply (serve_invariant stripe (fun g' => Dict.wf (cart g'))).
  intros rq g'. apply dispatch_keeps_wf.
Qed.

Lemma serve_keeps_keys_unique_witness :
  Dict.wf
    (cart (snd (serve stripe_ok
                  [ReqUpdateCart 2; ReqUpdateCart 1; ReqUpdateCart 2;
                   ReqUpdateQuantity 0 GET []; ReqUpdateCart 2]
                  (startup [soup; salad])))).
Proof.
  apply (serve_keeps_keys_unique stripe_ok
           [ReqUpdateCart 2; ReqUpdateCart 1; ReqUpdateCart 2;
            ReqUpdateQuantity 0 GET []; ReqUpdateCart 2]
           (startup [soup; salad])).
  constructor.
Defined.

(** What the cart does hold through any run of requests: every stored
    quantity is one that [int()] reads as a positive number, an [int] from
    the increment or a form string from the set path. *)
Theorem serve_keeps_quantities_readable stripe rqs g :
  quantities_readable (cart g) ->
  quantities_readable (cart (snd (serve stripe rqs g))).
Proof.
  apply (serve_invariant stripe (fun g' => quantities_readable (cart g'))).
  intros rq g'. apply dispatch_keeps_readable.
Qed.

Lemma serve_keeps_quantities_readable_witness :
  quantities_readable
    (cart (snd (serve stripe_ok
                  [ReqUpdateCart 1; ReqUpdateCart 2;
                   ReqUpdateQuantity 0 POST [("quantity-0", "3")];
                   ReqUpdateCart 2]
                  (startup [soup; salad])))).
Proof.
  apply (serve_keeps_quantities_readable stripe_ok
           [ReqUpdateCart 1; ReqUpdateCart 2;
            ReqUpdateQuantity 0 POST [("quantity-0", "3")];
            ReqUpdateCart 2]
           (startup [soup; salad])).
  constructor.
Defined.

(** ** Which carts [get_line_items] can price *)

Lemma resolvable_succ n i : resolvable n (S i) = (i <? n)%nat.
Proof.
  unfold resolvable. destruct n as [|n].
  - reflexivity.
  - change (1 <=? S n)%nat with true. now rewrite andb_true_r.
Qed.

Lemma meal_at_empty item : meal_at [] item = Raised IndexError.
Proof.
  unfold meal_at, py_list_getitem. simpl List.length.
  change (Z.of_nat 0) with 0.
  destruct (Z.of_nat item - 1 <? 0) eqn:E; cbv zeta.
  - replace (0 <=? Z.of_nat item - 1 + 0) with false; auto.
    symmetry. apply Z.leb_gt. apply Z.ltb_lt in E. lia.
  - replace (Z.of_nat item - 1 <? 0) with false.
    now rewrite andb_false_r.
Qed.

Lemma meal_at_resolvable ms item :
  if resolvable (List.length ms) item
  then exists m, meal_at ms item = Returned m
  else meal_at ms item = Raised IndexError.
Proof.
  destruct item as [|i].
  - destruct ms as [|m0 ms0].
    + apply meal_at_empty.
    + destruct (exists_last (l := m0 :: ms0)) as [ms' [m E]];
        [discriminate|].
      rewrite E, length_app. simpl List.length.
      replace (List.length ms' + 1)%nat with (S (List.length ms')) by lia.
      exists m. apply meal_at_zero.
  - rewrite resolvable_succ, meal_at_by_position.
    destruct (Nat.ltb_spec i (List.length ms)) as [H|H].
    + destruct (nth_error ms i) as [m|] eqn:E; eauto.
      apply nth_error_None in E. lia.
    + replace (nth_error ms i) with (@None Meal.t); auto.
      symmetry. now apply nth_error_None.
Qed.

Lemma line_items_by_position_resolvable ms c :
  if forallb (resolvable (List.length ms)) (Dict.keys c)
  then exists l,
         line_items_by_position ms c = Returned l /\
         List.length l = List.length c /\
         map quantity l = map snd c
  else line_items_by_position ms c = Raised IndexError.
Proof.
  induction c as [|[item qty] rest IH]; simpl.
  - exists []. auto.
  - pose proof (meal_at_resolvable ms item) as Hm.
    destruct (resolvable (List.length ms) item); simpl.
    + destruct Hm as [m Hm]. rewrite Hm.
      destruct (forallb (resolvable (List.length ms)) (Dict.keys rest)).
      * destruct IH as [l [Hl [Hlen Hq]]]. rewrite Hl.
        exists (line_item_of m qty :: l). simpl.
        repeat split; congruence.
      * now rewrite IH.
    + now rewrite Hm.
Qed.

(** [get_line_items] prices a cart exactly when every key is 1 to
    [len(meals)], or 0 with a catalog that is not empty (0 reads the last
    meal).  It then returns one line item per entry, in cart order, with the
    quantities of the entries, and the keys of the cart as meal ids;
    otherwise it raises [IndexError], and nothing else. *)
Theorem get_line_items_resolvable ms c :
  if forallb (resolvable (List.length ms)) (Dict.keys c)
  then exists items,
         get_line_items ms c = Returned (items, Dict.keys c) /\
         List.length items = List.length c /\
         map quantity items = map snd c
  else get_line_items ms c = Raised IndexError.
Proof.
  rewrite get_line_items_spec.
  pose proof (line_items_by_position_resolvable ms c) as H.
  destruct (forallb (resolvable (List.length ms)) (Dict.keys c)).
  - destruct H as [l [Hl H]]. rewrite Hl. eauto.
  - now rewrite H.
Qed.

(** The cart key 0, which /update-cart/0 stores like any other, is priced
    as the last meal of the catalog list: [meals[0 - 1]] counts from the
    end. *)
Theorem key_zero_is_last_meal ms m qty :
  get_line_items (ms ++ [m]) [(0%nat, qty)]
  = Returned ([line_item_of m qty], [0%nat]).
Proof.
  rewrite get_line_items_spec. simpl.
  now rewrite meal_at_zero.
Qed.

(** ** Checkout with a session *)

Lemma nonempty_false_nil (c : Dict.t) : Dict.nonempty c = false -> c = [].
Proof. destruct c; [reflexivity | discriminate]. Qed.

(** Signed in with an empty cart, checkout redirects home: the provider is
    not called and no global changes. *)
Theorem checkout_empty_cart stripe g :
  is_authenticated g = true -> cart g = Dict.empty ->
  create_checkout_session stripe g = (Returned (redirect (url_for EpHome)), g).
Proof.
  intros Ha Hc. unfold create_checkout_session. run_view.
  now rewrite Ha, Hc.
Qed.

Lemma checkout_empty_cart_witness :
  create_checkout_session stripe_ok
    {| meals := [soup; salad]; cart := Dict.empty; is_authenticated := true;
       flashes := []; stripe_calls := [] |}
  = (Returned (redirect (url_for EpHome)),
     {| meals := [soup; salad]; cart := Dict.empty; is_authenticated := true;
        flashes := []; stripe_calls := [] |}).
Proof.
  apply (checkout_empty_cart stripe_ok
           {| meals := [soup; salad]; cart := Dict.empty;
              is_authenticated := true; flashes := []; stripe_calls := [] |});
    reflexivity.
Defined.

(** Signed in with a cart that can be priced, checkout sends the provider
    one request, with the line items of the cart, mode [payment] and the two
    return URLs; it answers with a 303 redirect to the URL the provider
    returns, or raises what the provider raised.  Either way the cart is
    left as it was: it is emptied only by /order/success. *)
Theorem checkout_sends_cart stripe g items ids :
  is_authenticated g = true -> cart g <> Dict.empty ->
  get_line_items (meals g) (cart g) = Returned (items, ids) ->
  create_checkout_session stripe g =
  (match stripe (checkout_request items) with
   | Returned session_url => Returned (Redirect session_url 303)
   | Raised e => Raised e
   end,
   with_stripe_call (checkout_request items) g).
Proof.
  intros Ha Hc Hitems. unfold create_checkout_session, call_stripe. run_view.
  rewrite Ha. destruct (Dict.nonempty (cart g)) eqn:En.
  2:{ apply nonempty_false_nil in En. contradiction. }
  rewrite Hitems. simpl.
  unfold checkout_request, with_stripe_call.
  destruct (stripe _); reflexivity.
Qed.

Lemma checkout_sends_cart_witness :
  create_checkout_session stripe_ok
    {| meals := [soup; salad]; cart := [(2%nat, PyInt 3)];
       is_authenticated := true; flashes := []; stripe_calls := [] |}
  = (Returned (Redirect "https://checkout.stripe.com/pay/cs_test" 303),
     {| meals := [soup; salad]; cart := [(2%nat, PyInt 3)];
        is_authenticated := true; flashes := [];
        stripe_calls := [checkout_request [line_item_of salad (PyInt 3)]] |}).
Proof.
  apply (checkout_sends_cart stripe_ok
           {| meals := [soup; salad]; cart := [(2%nat, PyInt 3)];
              is_authenticated := true; flashes := []; stripe_calls := [] |}
           [line_item_of salad (PyInt 3)] [2%nat]).
  - reflexivity.
  - discriminate.
  - reflexivity.
Defined.

(** Signed in with a cart holding a key the catalog cannot resolve,
    checkout raises [IndexError] before the provider is called; no global
    changes. *)
Theorem checkout_unpriced_cart stripe g :
  is_authenticated g = true ->
  forallb (resolvable (List.length (meals g))) (Dict.keys (cart g)) = false ->
  create_checkout_session stripe g = (Raised IndexError, g).
Proof.
  intros Ha Hres. unfold create_checkout_session, call_stripe. run_view.
  rewrite Ha. destruct (Dict.nonempty (cart g)) eqn:En.
  2:{ apply nonempty_false_nil in En. rewrite En in Hres. discriminate. }
  pose proof (line_items_by_position_resolvable (meals g) (cart g)) as H.
  rewrite Hres in H.
  rewrite get_line_items_spec, H. reflexivity.
Qed.

Lemma checkout_unpriced_cart_witness :
  create_checkout_session stripe_ok
    {| meals := [soup; salad]; cart := [(1%nat, PyInt 1); (3%nat, PyInt 1)];
       is_authenticated := true; flashes := []; stripe_calls := [] |}
  = (Raised IndexError,
     {| meals := [soup; salad]; cart := [(1%nat, PyInt 1); (3%nat, PyInt 1)];
        is_authenticated := true; flashes := []; stripe_calls := [] |}).
Proof.
  apply (checkout_unpriced_cart stripe_ok
           {| meals := [soup; salad];
              cart := [(1%nat, PyInt 1); (3%nat, PyInt 1)];
              is_authenticated := true; flashes := []; stripe_calls := [] |});
    reflexivity.
Defined.

Lemma dispatch_orders stripe rq g :
  exists l,
    stripe_calls (snd (dispatch stripe rq g)) = (stripe_calls g ++ l)%list /\
    Forall (fun o => exists items,
                       o = checkout_request items /\ items <> []) l.
Proof.
  destruct rq; simpl;
    try (exists []; rewrite app_nil_r; split; [|constructor];
         unfold_views; split_view; reflexivity).
  unfold create_checkout_session, call_stripe. run_view.
  destruct (is_authenticated g); simpl;
    [|exists []; rewrite app_nil_r; split; [reflexivity | constructor]].
  destruct (Dict.nonempty (cart g)) eqn:En; simpl;
    [|exists []; rewrite app_nil_r; split; [reflexivity | constructor]].
  pose proof (get_line_items_resolvable (meals g) (cart g)) as H.
  destruct (forallb (resolvable (List.length (meals g))) (Dict.keys (cart g))).
  - destruct H as [items [Hitems [Hlen _]]]. rewrite Hitems. simpl.
    exists [checkout_request items]. split.
    + destruct (stripe _); reflexivity.
    + constructor; [|constructor]. exists items. split; [reflexivity|].
      intros ->. destruct (cart g); discriminate.
  - rewrite H. simpl. exists []. rewrite app_nil_r.
    split; [reflexivity | constructor].
Qed.

(** Through any run of requests the log of provider calls only grows at
    its end, and every request added carries at least one line item, mode
    [payment] and the two return URLs: an empty order is never sent. *)
Theorem serve_orders_nonempty stripe rqs g :
  exists l,
    stripe_calls (snd (serve stripe rqs g)) = (stripe_calls g ++ l)%list /\
    Forall (fun o => exists items,
                       o = checkout_request items /\ items <> []) l.
Proof.
  revert g. induction rqs as [|rq rqs IH]; intros g.
  - exists []. simpl. rewrite app_nil_r. split; [reflexivity | constructor].
  - rewrite serve_cons. simpl snd.
    destruct (dispatch_orders stripe rq g) as [l1 [H1 F1]].
    destruct (IH (snd (dispatch stripe rq g))) as [l2 [H2 F2]].
    exists (l1 ++ l2)%list. split.
    + now rewrite H2, H1, app_assoc.
    + apply Forall_app. auto.
Qed.

(** ** The cart view *)

(** /shopping-cart only reads: whatever it answers, no global changes. *)
Theorem shopping_cart_reads_only g : snd (shopping_cart g) = g.
Proof.
  unfold shopping_cart. run_view.
  destruct (get_line_items (meals g) (cart g)) as [r|]; simpl; auto.
  destruct (sum_lines (NumInt 0) (fst r)); reflexivity.
Qed.

(** On an empty cart /shopping-cart renders no line item, no meal id and
    the total 0, the [int] the sum starts from. *)
Theorem shopping_cart_empty g :
  cart g = Dict.empty ->
  shopping_cart g =
  (Returned (RenderTemplate "shopping_cart.html" (CartContext (NumInt 0) [] [])),
   g).
Proof.
  intros H. unfold shopping_cart. run_view. now rewrite H.
Qed.

Lemma shopping_cart_empty_witness :
  shopping_cart (startup [soup; salad]) =
  (Returned (RenderTemplate "shopping_cart.html" (CartContext (NumInt 0) [] [])),
   startup [soup; salad]).
Proof.
  apply (shopping_cart_empty (startup [soup; salad])). reflexivity.
Defined.

Lemma sum_lines_float items : forall t,
  items <> [] \/ (exists f, t = NumFloat f) ->
  forall total, sum_lines t items = Returned total ->
  exists f, total = NumFloat f.
Proof.
  induction items as [|item rest IH]; intros t Ht total H; simpl in H.
  - destruct Ht as [Ht|[f ->]]; [congruence|]. inversion H. eauto.
  - destruct (add_line t item) as [t'|] eqn:Ha; [|discriminate].
    apply (IH t'); auto. right.
    unfold add_line in Ha.
    destruct (py_float (quantity item)); [|discriminate].
    destruct t.
    + destruct (py_float (PyInt z)); inversion Ha; eauto.
    + inversion Ha; eauto.
Qed.

(** /shopping-cart raises [IndexError] on a cart with a key the catalog
    cannot resolve; when it answers for a cart that is not empty, the total
    is a float and the line items and meal ids are those of
    [get_line_items]. *)
Theorem shopping_cart_priced g :
  cart g <> Dict.empty ->
  if forallb (resolvable (List.length (meals g))) (Dict.keys (cart g))
  then forall r, fst (shopping_cart g) = Returned r ->
         exists f items,
           r = RenderTemplate "shopping_cart.html"
                 (CartContext (NumFloat f) items (Dict.keys (cart g))) /\
           get_line_items (meals g) (cart g)
             = Returned (items, Dict.keys (cart g))
  else fst (shopping_cart g) = Raised IndexError.
Proof.
  intros Hc. unfold shopping_cart. run_view.
  pose proof (get_line_items_resolvable (meals g) (cart g)) as H.
  destruct (forallb (resolvable (List.length (meals g))) (Dict.keys (cart g))).
  - destruct H as [items [Hitems [Hlen _]]]. rewrite Hitems. simpl.
    intros r Hr.
    destruct (sum_lines (NumInt 0) items) as [total|] eqn:Hs;
      [|discriminate].
    destruct (sum_lines_float items (NumInt 0)) with (total := total)
      as [f ->]; auto.
    { left. intros ->. destruct (cart g); [now apply Hc | discriminate]. }
    simpl in Hr. inversion Hr. subst r.
    destruct (PyFloat.round2 f) eqn:Ef; eauto.
  - now rewrite H.
Qed.

Lemma shopping_cart_priced_witness :
  fst (shopping_cart
         (with_cart [(1%nat, PyInt 1); (3%nat, PyInt 1)]
            (startup [soup; salad])))
  = Raised IndexError.
Proof.
  apply (shopping_cart_priced
           (with_cart [(1%nat, PyInt 1); (3%nat, PyInt 1)]
              (startup [soup; salad]))).
  discriminate.
Defined.

(** ** Order and position in the cart *)

Lemma get_none_not_in k (c : Dict.t) :
  Dict.get k c = None -> ~ In k (Dict.keys c).
Proof.
  intros H Hin. apply DictFacts.get_in_keys in Hin. contradiction.
Qed.

Lemma get_some_in k (c : Dict.t) v :
  Dict.get k c = Some v -> In k (Dict.keys c).
Proof.
  intros H. apply DictFacts.get_in_keys. congruence.
Qed.

(** The increment keeps the order of the cart: an id already in it stays
    where it is, a new id goes last; this holds whatever the view
    answers. *)
Theorem add_to_cart_key_order g meal_id :
  Dict.keys (cart (snd (add_to_cart meal_id g))) =
  match Dict.get meal_id (cart g) with
  | Some _ => Dict.keys (cart g)
  | None => (Dict.keys (cart g) ++ [meal_id])%list
  end.
Proof.
  unfold add_to_cart, Dict.getitem. run_view.
  destruct (Dict.get meal_id (cart g)) as [v|] eqn:Hget; simpl.
  - pose proof (get_some_in _ _ _ Hget) as Hin.
    destruct (truthy v); simpl.
    + destruct (py_add_one v); simpl; auto.
      now apply DictFacts.keys_set_present.
    + now apply DictFacts.keys_set_present.
  - apply DictFacts.keys_set_absent. now apply get_none_not_in.
Qed.

Lemma filter_out_nth (l : list nat) : forall i k,
  NoDup l -> nth_error l i = Some k ->
  filter (fun k' => negb (Nat.eqb k k')) l
  = (firstn i l ++ skipn (S i) l)%list.
Proof.
  induction l as [|x l IH]; intros i k Hnd Hnth.
  - destruct i; discriminate.
  - inversion Hnd as [|? ? Hx Hnd']; subst.
    destruct i as [|i]; simpl in Hnth.
    + inversion Hnth; subst x. simpl. rewrite Nat.eqb_refl. simpl.
      apply forallb_filter_id. apply forallb_forall. intros y Hy.
      apply negb_true_iff, Nat.eqb_neq. intros ->. contradiction.
    + simpl. destruct (Nat.eqb k x) eqn:E.
      * apply Nat.eqb_eq in E. subst x. apply nth_error_In in Hnth.
        contradiction.
      * simpl. f_equal. now apply IH.
Qed.

(** Removing by position shifts the entries behind it: after a GET of
    /update-quantity/i the keys are those before position [i] followed by
    those after it, so the entry that was at [i + 1] now answers to [i]. *)
Theorem remove_at_shifts g item_idx form :
  Dict.wf (cart g) -> (item_idx < List.length (cart g))%nat ->
  Dict.keys (cart (snd (update_quantity item_idx GET form g)))
  = (firstn item_idx (Dict.keys (cart g))
       ++ skipn (S item_idx) (Dict.keys (cart g)))%list /\
  forall j, (item_idx <= j)%nat ->
    nth_error (Dict.keys (cart (snd (update_quantity item_idx GET form g)))) j
    = nth_error (Dict.keys (cart g)) (S j).
Proof.
  intros Hwf Hlen.
  destruct (nth_error (Dict.keys (cart g)) item_idx) as [k|] eqn:Hnth.
  2:{ apply nth_error_None in Hnth. unfold Dict.keys in Hnth.
      rewrite length_map in Hnth. lia. }
  destruct (nth_key_present _ _ _ Hnth) as [v Hv].
  rewrite (update_quantity_in_range g item_idx GET form k Hnth).
  rewrite (update_quantity_at_get g k item_idx form v Hv). simpl.
  rewrite DictFacts.keys_remove.
  rewrite (filter_out_nth _ item_idx k Hwf Hnth).
  split; [reflexivity|].
  intros j Hj.
  assert (Hl : List.length (firstn item_idx (Dict.keys (cart g))) = item_idx).
  { apply firstn_length_le. unfold Dict.keys. rewrite length_map. lia. }
  rewrite nth_error_app2 by lia. rewrite Hl.
  rewrite nth_error_skipn.
  replace (S item_idx + (j - item_idx))%nat with (S j) by lia.
  reflexivity.
Qed.

Lemma remove_at_shifts_witness :
  Dict.keys
    (cart (snd (update_quantity 0 GET []
                  (with_cart [(2%nat, PyInt 1); (1%nat, PyInt 4);
                              (5%nat, PyInt 1)]
                     (startup [soup; salad])))))
  = [1%nat; 5%nat].
Proof.
  apply (remove_at_shifts
           (with_cart [(2%nat, PyInt 1); (1%nat, PyInt 4); (5%nat, PyInt 1)]
              (startup [soup; salad])) 0 []).
  - repeat constructor; simpl; intuition discriminate.
  - simpl. lia.
Defined.

(** An id removed from the cart and added again comes back last, with the
    quantity 1, whatever it held before. *)
Theorem readd_goes_last stripe g item_idx form k :
  Dict.wf (cart g) -> nth_error (Dict.keys (cart g)) item_idx = Some k ->
  exists g',
    serve stripe [ReqUpdateQuantity item_idx GET form; ReqUpdateCart k] g
    = ([Returned (redirect (url_for EpShoppingCart));
        Returned (redirect (url_for EpHome))], g') /\
    Dict.keys (cart g')
    = (firstn item_idx (Dict.keys (cart g))
         ++ skipn (S item_idx) (Dict.keys (cart g)) ++ [k])%list /\
    Dict.get k (cart g') = Some (PyInt 1).
Proof.
  intros Hwf Hnth.
  destruct (nth_key_present _ _ _ Hnth) as [v Hv].
  eexists. split.
  { rewrite !serve_cons. cbn [dispatch].
    rewrite (update_quantity_in_range g item_idx GET form k Hnth).
    rewrite (update_quantity_at_get g k item_idx form v Hv).
    cbn [fst snd].
    rewrite add_to_cart_fresh by (simpl; apply DictFacts.get_remove_same).
    simpl. reflexivity. }
  simpl. split.
  - rewrite DictFacts.keys_set_absent.
    + rewrite DictFacts.keys_remove.
      rewrite (filter_out_nth _ item_idx k Hwf Hnth).
      now rewrite <- app_assoc.
    + apply get_none_not_in, DictFacts.get_remove_same.
  - apply DictFacts.get_set_same.
Qed.

Lemma readd_goes_last_witness :
  exists g',
    serve stripe_ok [ReqUpdateQuantity 0 GET []; ReqUpdateCart 2]
      (with_cart [(2%nat, PyInt 7); (1%nat, PyInt 4)] (startup [soup; salad]))
    = ([Returned (redirect (url_for EpShoppingCart));
        Returned (redirect (url_for EpHome))], g') /\
    Dict.keys (cart g') = [1%nat; 2%nat] /\
    Dict.get 2 (cart g') = Some (PyInt 1).
Proof.
  apply (readd_goes_last stripe_ok
           (with_cart [(2%nat, PyInt 7); (1%nat, PyInt 4)]
              (startup [soup; salad])) 0 [] 2%nat).
  - repeat constructor; simpl; intuition discriminate.
  - reflexivity.
Defined.

Lemma form_getitem_missing form field :
  (forall v, ~ In (field, v) form) ->
  form_getitem form field = Raised BadRequestKeyError.
Proof.
  induction form as [|[k v] form IH]; intros H; simpl; auto.
  destruct (String.eqb k field) eqn:E.
  - apply String.eqb_eq in E. subst k. exfalso. apply (H v). simpl. auto.
  - apply IH. intros v' Hin. apply (H v'). simpl. auto.
Qed.

(** A POST to /update-quantity/i must carry the field named after the
    position, [quantity-i]: without it the view raises
    [BadRequestKeyError] and no global changes, whatever other fields were
    posted. *)
Theorem update_quantity_missing_field g item_idx form :
  (item_idx < List.length (cart g))%nat ->
  (forall v, ~ In (quantity_field item_idx, v) form) ->
  update_quantity item_idx POST form g = (Raised BadRequestKeyError, g).
Proof.
  intros Hlen Hform.
  destruct (nth_error (Dict.keys (cart g)) item_idx) as [k|] eqn:Hnth.
  2:{ apply nth_error_None in Hnth. unfold Dict.keys in Hnth.
      rewrite length_map in Hnth. lia. }
  destruct (nth_key_present _ _ _ Hnth) as [v Hv].
  rewrite (update_quantity_in_range g item_idx POST form k Hnth).
  rewrite (update_quantity_at_form g k item_idx POST form v) by
    (congruence || assumption).
  now rewrite (form_getitem_missing form _ Hform).
Qed.

Lemma update_quantity_missing_field_witness :
  update_quantity 0 POST [("quantity-1", "3")]
    (with_cart [(2%nat, PyInt 7); (1%nat, PyInt 4)] (startup [soup; salad]))
  = (Raised BadRequestKeyError,
     with_cart [(2%nat, PyInt 7); (1%nat, PyInt 4)] (startup [soup; salad])).
Proof.
  apply (update_quantity_missing_field
           (with_cart [(2%nat, PyInt 7); (1%nat, PyInt 4)]
              (startup [soup; salad])) 0 [("quantity-1", "3")]).
  - simpl. lia.
  - intros v [H|[]]. discriminate H.
Defined.

(** ** Logout *)




(** ** The database URI *)

Lemma str_replace_first_at_head old new s :
  String.prefix old s = true ->
  str_replace_first old new s = new ++ str_drop (String.length old) s.
Proof.
  intros H. destruct s; simpl in *; now rewrite H.
Qed.

Lemma prefix_app p s : String.prefix p (p ++ s) = true.
Proof.
  induction p as [|c p IH]; simpl.
  - now destruct s.
  - destruct (ascii_dec c c); [exact IH | congruence].
Qed.

Lemma str_drop_app p s : str_drop (String.length p) (p ++ s) = s.
Proof. induction p; simpl; auto. Qed.

Lemma database_uri_unchanged u :
  String.prefix "postgres://" u = false -> database_uri (Some u) = u.
Proof. intros H. unfold database_uri. now rewrite H. Qed.

(** A URI with the scheme [postgres://] gets the scheme [postgresql://]
    and keeps all that follows it, also where that holds [postgres://]
    again; any other URI is used as it is. *)
Theorem database_uri_scheme u rest :
  database_uri (Some ("postgres://" ++ rest)) = "postgresql://" ++ rest /\
  database_uri (Some u) =
    if String.prefix "postgres://" u
    then "postgresql://" ++ str_drop 11 u
    else u.
Proof.
  split.
  - unfold database_uri.
    assert (E : String.prefix "postgres://" ("postgres://" ++ rest) = true)
      by apply prefix_app.
    rewrite E, str_replace_first_at_head by exact E.
    now rewrite str_drop_app.
  - unfold database_uri.
    destruct (String.prefix "postgres://" u) eqn:E; [|reflexivity].
    now rewrite str_replace_first_at_head.
Qed.

(** The URI handed to the database layer never has the scheme
    [postgres://], and normalising it again changes nothing. *)
Theorem database_uri_normal env :
  String.prefix "postgres://" (database_uri env) = false /\
  database_uri (Some (database_uri env)) = database_uri env.
Proof.
  assert (H : String.prefix "postgres://" (database_uri env) = false).
  { unfold database_uri.
    set (uri := match env with Some u => u | None => _ end).
    destruct (String.prefix "postgres://" uri) eqn:E; [|exact E].
    rewrite str_replace_first_at_head by exact E.
    reflexivity. }
  split; [exact H|].
  now apply database_uri_unchanged.
Qed.

(** ** Registering and logging in *)

Lemma customer_by_email_none cs e :
  customer_by_email cs e = None -> ~ In e (map Customer.email cs).
Proof.
  induction cs as [|c cs IH]; simpl; intros H; [tauto|].
  destruct (String.eqb (Customer.email c) e) eqn:E; [discriminate|].
  apply String.eqb_neq in E. intros [Hc|Hin]; [contradiction | now apply IH].
Qed.

Lemma customer_by_email_some cs e c :
  customer_by_email cs e = Some c -> In c cs /\ Customer.email c = e.
Proof.
  induction cs as [|c0 cs IH]; simpl; intros H; [discriminate|].
  destruct (String.eqb (Customer.email c0) e) eqn:E.
  - inversion H; subst. apply String.eqb_eq in E. auto.
  - destruct (IH H). auto.
Qed.

Lemma customer_by_email_last cs c :
  customer_by_email cs (Customer.email c) = None ->
  customer_by_email (cs ++ [c]) (Customer.email c) = Some c.
Proof.
  induction cs as [|c0 cs IH]; simpl; intros H.
  - now rewrite String.eqb_refl.
  - destruct (String.eqb (Customer.email c0) (Customer.email c));
      [discriminate | auto].
Qed.

(** [register] never gives two customers the same email: if the emails of
    the table are all different before, they are after, whatever was
    posted. *)
Theorem register_keeps_emails_unique gen form salt s :
  NoDup (map Customer.email (customers s)) ->
  NoDup (map Customer.email (customers (snd (register gen form salt s)))).
Proof.
  intros H. unfold register.
  destruct (is_authenticated (app s)); [exact H|].
  destruct form as [d|]; [|exact H].
  destruct (customer_by_email (customers s) (RegisterForm.email d)) eqn:E;
    simpl; [exact H|].
  rewrite map_app. simpl. apply NoDup_app; auto.
  - constructor; [simpl; tauto | constructor].
  - intros e He [<-|[]]. revert He. now apply customer_by_email_none.
Qed.

Lemma register_keeps_emails_unique_witness :
  NoDup
    (map Customer.email
       (customers
          (snd (register salted_hash
                  (Some {| RegisterForm.name := "Ada again";
                           RegisterForm.email := "ada@example.org";
                           RegisterForm.password := "other" |})
                  "e5f6a7b8"
                  {| app := startup [soup; salad]; customers := [ada] |})))).
Proof.
  apply (register_keeps_emails_unique salted_hash
           (Some {| RegisterForm.name := "Ada again";
                    RegisterForm.email := "ada@example.org";
                    RegisterForm.password := "other" |})
           "e5f6a7b8"
           {| app := startup [soup; salad]; customers := [ada] |}).
  repeat constructor. simpl. tauto.
Defined.

(** With nobody signed in, registering an email the table does not hold
    adds one customer, last, with the posted name and email and the hash of
    the posted password; the visitor is signed in and sent to the cart page
    when the cart holds something, home otherwise.  Cart, catalog, flashed
    messages and provider log stay as they were. *)
Theorem register_new_customer gen d salt s :
  is_authenticated (app s) = false ->
  customer_by_email (customers s) (RegisterForm.email d) = None ->
  register gen (Some d) salt s =
  (Answer (if Dict.nonempty (cart (app s))
           then redirect (url_for EpShoppingCart)
           else redirect (url_for EpHome)),
   {| app := {| meals := meals (app s); cart := cart (app s);
                is_authenticated := true;
                flashes := flashes (app s);
                stripe_calls := stripe_calls (app s) |};
      customers :=
        customers s ++
        [{| Customer.name := RegisterForm.name d;
            Customer.email := RegisterForm.email d;
            Customer.password := gen (RegisterForm.password d) salt |}] |}).
Proof.
  intros Ha He. unfold register. now rewrite Ha, He.
Qed.

Lemma register_new_customer_witness :
  register salted_hash
    (Some {| RegisterForm.name := "Bob";
             RegisterForm.email := "bob@example.org";
             RegisterForm.password := "hunter2" |})
    "e5f6a7b8"
    {| app := with_cart [(1%nat, PyInt 1)] (startup [soup; salad]);
       customers := [ada] |}
  = (Answer (redirect "/shopping-cart"),
     {| app := {| meals := [soup; salad]; cart := [(1%nat, PyInt 1)];
                  is_authenticated := true; flashes := [];
                  stripe_calls := [] |};
        customers :=
          [ada;
           {| Customer.name := "Bob"; Customer.email := "bob@example.org";
              Customer.password := "hunter2$e5f6a7b8" |}] |}).
Proof.
  apply (register_new_customer salted_hash
           {| RegisterForm.name := "Bob";
              RegisterForm.email := "bob@example.org";
              RegisterForm.password := "hunter2" |}
           "e5f6a7b8"
           {| app := with_cart [(1%nat, PyInt 1)] (startup [soup; salad]);
              customers := [ada] |});
    reflexivity.
Defined.

(** With nobody signed in, registering an email the table already holds
    creates nothing and signs nobody in: the notice is flashed and the
    visitor is sent to the login page. *)
Theorem register_taken_email gen d salt s c :
  is_authenticated (app s) = false ->
  customer_by_email (customers s) (RegisterForm.email d) = Some c ->
  register gen (Some d) salt s =
  (Answer (redirect (url_for EpLogin)),
   {| app := {| meals := meals (app s); cart := cart (app s);
                is_authenticated := false;
                flashes := flashes (app s) ++ [already_signed_up];
                stripe_calls := stripe_calls (app s) |};
      customers := customers s |}).
Proof.
  intros Ha He. unfold register. rewrite Ha, He. simpl. now rewrite Ha.
Qed.

Lemma register_taken_email_witness :
  register salted_hash
    (Some {| RegisterForm.name := "Ada again";
             RegisterForm.email := "ada@example.org";
             RegisterForm.password := "other" |})
    "e5f6a7b8"
    {| app := startup [soup; salad]; customers := [ada] |}
  = (Answer (redirect "/login"),
     {| app := {| meals := [soup; salad]; cart := [];
                  is_authenticated := false;
                  flashes := [already_signed_up];
                  stripe_calls := [] |};
        customers := [ada] |}).
Proof.
  apply (register_taken_email salted_hash
           {| RegisterForm.name := "Ada again";
              RegisterForm.email := "ada@example.org";
              RegisterForm.password := "other" |}
           "e5f6a7b8"
           {| app := startup [soup; salad]; customers := [ada] |} ada);
    reflexivity.
Defined.

(** [login] signs a visitor in only on a posted form whose email is held
    by a customer of the table and whose password checks against the hash
    of the first such customer. *)
Theorem login_needs_matching_password check form s :
  is_authenticated (app s) = false ->
  is_authenticated (app (snd (login check form s))) = true ->
  exists d c,
    form = Some d /\
    In c (customers s) /\
    Customer.email c = LoginForm.email d /\
    check (Customer.password c) (LoginForm.password d) = true.
Proof.
  intros Ha. unfold login. rewrite Ha.
  destruct form as [d|]; simpl; [|congruence].
  destruct (customer_by_email (customers s) (LoginForm.email d)) as [c|] eqn:E;
    simpl; [|congruence].
  destruct (check (Customer.password c) (LoginForm.password d)) eqn:Ec;
    simpl; [|congruence].
  intros _. destruct (customer_by_email_some _ _ _ E) as [Hin He].
  exists d, c. auto.
Qed.

Lemma login_needs_matching_password_witness :
  exists d c,
    Some {| LoginForm.email := "ada@example.org";
            LoginForm.password := "s3cret" |} = Some d /\
    In c [ada] /\
    Customer.email c = LoginForm.email d /\
    salted_check (Customer.password c) (LoginForm.password d) = true.
Proof.
  apply (login_needs_matching_password salted_check
           (Some {| LoginForm.email := "ada@example.org";
                    LoginForm.password := "s3cret" |})
           {| app := startup [soup; salad]; customers := [ada] |});
    reflexivity.
Defined.

(** A rejected login tells the two causes apart: an email the table does
    not hold flashes one notice, a password that does not check flashes
    another; both send the visitor back to the login page, signed out, and
    change nothing else. *)
Theorem login_rejected check d s :
  is_authenticated (app s) = false ->
  match customer_by_email (customers s) (LoginForm.email d) with
  | Some c => check (Customer.password c) (LoginForm.password d) = false
  | None => True
  end ->
  login check (Some d) s =
  (Answer (redirect (url_for EpLogin)),
   {| app := {| meals := meals (app s); cart := cart (app s);
                is_authenticated := false;
                flashes :=
                  flashes (app s) ++
                  [match customer_by_email (customers s) (LoginForm.email d)
                   with
                   | Some _ => password_incorrect
                   | None => email_unknown
                   end];
                stripe_calls := stripe_calls (app s) |};
      customers := customers s |}).
Proof.
  intros Ha Hc. unfold login. rewrite Ha.
  destruct (customer_by_email (customers s) (LoginForm.email d)) as [c|];
    simpl; rewrite ?Hc, ?Ha; reflexivity.
Qed.

Lemma login_rejected_witness :
  login salted_check
    (Some {| LoginForm.email := "ada@example.org";
             LoginForm.password := "guess" |})
    {| app := startup [soup; salad]; customers := [ada] |}
  = (Answer (redirect "/login"),
     {| app := {| meals := [soup; salad]; cart := [];
                  is_authenticated := false;
                  flashes := [password_incorrect];
                  stripe_calls := [] |};
        customers := [ada] |}).
Proof.
  apply (login_rejected salted_check
           {| LoginForm.email := "ada@example.org";
              LoginForm.password := "guess" |}
           {| app := startup [soup; salad]; customers := [ada] |});
    reflexivity.
Defined.

(** If a hash always checks against the password it was made from, then a
    visitor who registers a new email, logs out and logs in again with the
    same email and password is signed in, and sent home: logout has emptied
    the cart. *)
Theorem register_logout_login gen check d salt s :
  (forall password salt', check (gen password salt') password = true) ->
  is_authenticated (app s) = false ->
  customer_by_email (customers s) (RegisterForm.email d) = None ->
  let s1 := snd (register gen (Some d) salt s) in
  let s2 := snd (on_site logout s1) in
  login check
    (Some {| LoginForm.email := RegisterForm.email d;
             LoginForm.password := RegisterForm.password d |})
    s2
  = (Answer (redirect (url_for EpHome)),
     {| app := {| meals := meals (app s); cart := Dict.empty;
                  is_authenticated := true;
                  flashes := flashes (app s);
                  stripe_calls := stripe_calls (app s) |};
        customers :=
          customers s ++
          [{| Customer.name := RegisterForm.name d;
              Customer.email := RegisterForm.email d;
              Customer.password := gen (RegisterForm.password d) salt |}] |}).
Proof.
  intros Hhash Ha He. unfold register. rewrite Ha, He. simpl.
  unfold login. simpl.
  set (c := {| Customer.name := RegisterForm.name d;
               Customer.email := RegisterForm.email d;
               Customer.password := gen (RegisterForm.password d) salt |}).
  change (RegisterForm.email d) with (Customer.email c).
  rewrite customer_by_email_last by exact He.
  simpl. now rewrite Hhash.
Qed.

Lemma salted_check_hash password salt :
  salted_check (salted_hash password salt) password = true.
Proof.
  unfold salted_check, salted_hash.
  change (password ++ "$" ++ salt) with (password ++ ("$" ++ salt)).
  induction password as [|c p IH]; simpl.
  - now destruct salt.
  - destruct (ascii_dec c c); [exact IH | congruence].
Qed.

Lemma register_logout_login_witness :
  login salted_check
    (Some {| LoginForm.email := "bob@example.org";
             LoginForm.password := "hunter2" |})
    (snd (on_site logout
            (snd (register salted_hash
                    (Some {| RegisterForm.name := "Bob";
                             RegisterForm.email := "bob@example.org";
                             RegisterForm.password := "hunter2" |})
                    "e5f6a7b8"
                    {| app := with_cart [(1%nat, PyInt 1)]
                                (startup [soup; salad]);
                       customers := [ada] |}))))
  = (Answer (redirect "/"),
     {| app := {| meals := [soup; salad]; cart := [];
                  is_authenticated := true; flashes := [];
                  stripe_calls := [] |};
        customers :=
          [ada;
           {| Customer.name := "Bob"; Customer.email := "bob@example.org";
              Customer.password := "hunter2$e5f6a7b8" |}] |}).
Proof.
  apply (register_logout_login salted_hash salted_check
           {| RegisterForm.name := "Bob";
              RegisterForm.email := "bob@example.org";
              RegisterForm.password := "hunter2" |}
           "e5f6a7b8"
           {| app := with_cart [(1%nat, PyInt 1)] (startup [soup; salad]);
              customers := [ada] |}).
  - exact salted_check_hash.
  - reflexivity.
  - reflexivity.
Defined.

(** A visitor who is signed in is sent home by /register and /login:
    nothing is looked up, created, flashed or changed, whatever was
    posted. *)
Theorem signed_in_sent_home gen check rform lform salt s :
  is_authenticated (app s) = true ->
  register gen rform salt s = (Answer (redirect (url_for EpHome)), s) /\
  login check lform s = (Answer (redirect (url_for EpHome)), s).
Proof.
  intros Ha. unfold register, login. now rewrite Ha.
Qed.

Lemma signed_in_sent_home_witness :
  register salted_hash
    (Some {| RegisterForm.name := "Bob";
             RegisterForm.email := "bob@example.org";
             RegisterForm.password := "hunter2" |})
    "e5f6a7b8"
    {| app := {| meals := [soup]; cart := []; is_authenticated := true;
                 flashes := []; stripe_calls := [] |};
       customers := [ada] |}
  = (Answer (redirect "/"),
     {| app := {| meals := [soup]; cart := []; is_authenticated := true;
                  flashes := []; stripe_calls := [] |};
        customers := [ada] |}).
Proof.
  apply (signed_in_sent_home salted_hash salted_check
           (Some {| RegisterForm.name := "Bob";
                    RegisterForm.email := "bob@example.org";
                    RegisterForm.password := "hunter2" |})
           None "e5f6a7b8"
           {| app := {| meals := [soup]; cart := []; is_authenticated := true;
                        flashes := []; stripe_calls := [] |};
              customers := [ada] |}).
  reflexivity.
Defined.

(** Neither /register nor /login touches the cart, the catalog or the
    provider log, on any input, and /login never writes the customer
    table. *)
Theorem auth_views_keep_cart gen check rform lform salt s :
  (cart (app (snd (register gen rform salt s))) = cart (app s) /\
   meals (app (snd (register gen rform salt s))) = meals (app s) /\
   stripe_calls (app (snd (register gen rform salt s)))
     = stripe_calls (app s)) /\
  (cart (app (snd (login check lform s))) = cart (app s) /\
   meals (app (snd (login check lform s))) = meals (app s) /\
   stripe_calls (app (snd (login check lform s))) = stripe_calls (app s) /\
   customers (snd (login check lform s)) = customers s).
Proof.
  unfold register, login. split.
  - destruct (is_authenticated (app s)); auto.
    destruct rform as [d|]; auto.
    destruct (customer_by_email (customers s) (RegisterForm.email d));
      simpl; auto.
  - destruct (is_authenticated (app s)); auto.
    destruct lform as [d|]; auto.
    destruct (customer_by_email (customers s) (LoginForm.email d)) as [c|];
      simpl; auto.
    destruct (check (Customer.password c) (LoginForm.password d));
      simpl; auto.
Qed.

(** ** Integer quantities *)

Lemma dispatch_keeps_positive stripe rq g :
  sets_quantity rq = false ->
  quantities_positive (cart g) ->
  quantities_positive (cart (snd (dispatch stripe rq g))).
Proof.
  intros Hrq H. destruct rq; simpl.
  - exact H.
  - now apply add_to_cart_keeps_positive.
  - unfold_views; split_view; exact H.
  - destruct method; try discriminate.
    destruct (nth_error (Dict.keys (cart g)) item_idx) as [k|] eqn:Hnth.
    + destruct (nth_key_present _ _ _ Hnth) as [v Hv].
      rewrite (update_quantity_in_range g item_idx GET form k Hnth).
      rewrite (update_quantity_at_get g k item_idx form v Hv). simpl.
      now apply quantities_positive_remove.
    + now rewrite (update_quantity_out_of_range g item_idx GET form Hnth).
  - unfold_views; split_view; exact H.
  - constructor.
  - exact H.
  - constructor.
Qed.

(** As long as no quantity is set through the form, the cart holds
    positive integers only: a run of requests without a POST (or HEAD) to
    /update-quantity keeps every stored quantity a positive [int]. *)
Theorem positive_ints_kept_without_set stripe rqs g :
  forallb (fun rq => negb (sets_quantity rq)) rqs = true ->
  quantities_positive (cart g) ->
  quantities_positive (cart (snd (serve stripe rqs g))).
Proof.
  revert g. induction rqs as [|rq rqs IH]; intros g Hrqs H.
  - exact H.
  - simpl in Hrqs. apply andb_true_iff in Hrqs. destruct Hrqs as [Hrq Hrqs].
    rewrite serve_cons. simpl snd. apply IH; auto.
    apply dispatch_keeps_positive; auto.
    now apply negb_true_iff.
Qed.

Lemma positive_ints_kept_without_set_witness :
  quantities_positive
    (cart (snd (serve stripe_ok
                  [ReqUpdateCart 1; ReqUpdateCart 2; ReqUpdateCart 1;
                   ReqUpdateQuantity 1 GET []; ReqShoppingCart]
                  (startup [soup; salad])))).
Proof.
  apply (positive_ints_kept_without_set stripe_ok
           [ReqUpdateCart 1; ReqUpdateCart 2; ReqUpdateCart 1;
            ReqUpdateQuantity 1 GET []; ReqShoppingCart]
           (startup [soup; salad])).
  - reflexivity.
  - constructor.
Defined.

(** On a cart of positive integers an increment cannot fail: it returns
    its redirect and leaves a cart of positive integers. *)
Theorem increment_on_positive_ints g meal_id :
  quantities_positive (cart g) ->
  fst (add_to_cart meal_id g) = Returned (redirect (url_for EpHome)) /\
  quantities_positive (cart (snd (add_to_cart meal_id g))).
Proof. apply add_to_cart_keeps_positive. Qed.

Lemma increment_on_positive_ints_witness :
  fst (add_to_cart 2 (with_cart [(2%nat, PyInt 41)] (startup [soup; salad])))
    = Returned (redirect (url_for EpHome)) /\
  quantities_positive
    (cart (snd (add_to_cart 2
                  (with_cart [(2%nat, PyInt 41)] (startup [soup; salad]))))).
Proof.
  apply (increment_on_positive_ints
           (with_cart [(2%nat, PyInt 41)] (startup [soup; salad])) 2).
  repeat constructor. exists 41. split; [reflexivity | lia].
Defined.


